(** * Twitter data intelligence: sentiment analyzer and database loader

    A shallow embedding of [src/transform/sentiment_analyzer.py] and
    [src/load/database_loader.py], with the properties of the ingestion
    path (classify, normalise, persist, aggregate) stated over it.

    Conventions of the embedding:
    - a Python value that a raw record may carry is a [pyval];
    - a Python [str] is a [string] of 8-bit characters; [lower] and [strip]
      act on the ASCII range and leave other characters alone;
    - a Python [float] is a rational [Q] (no rounding is modelled);
    - code that may raise runs in [outcome]; code that also updates the
      connection runs in the state-and-exception monad [M], where the
      state reached when an exception is raised is kept, as in Python;
    - TextBlob and the built-in functions of SQLite are interfaces
      (type classes), since they are libraries the repository calls. *)

From Stdlib Require Import ZArith QArith Qabs Lqa Ascii String.
From stdpp Require Import base option strings list sorting gmap pretty.

Set Warnings "-clear-no-such-hyp".

Local Open Scope string_scope.
Local Open Scope list_scope.

(** ** Python values *)

#[warnings="-register-all"]
Inductive pyval : Type :=
| PyNone
| PyBool (b : bool)
| PyInt (z : Z)
| PyFloat (q : Q)
| PyStr (s : string)
| PyList (l : list pyval).

(** A record (a Python [dict] with string keys). *)
Abbreviation pydict := (gmap string pyval).

(** [bool(v)]. *)
Definition py_truthy (v : pyval) : bool :=
  match v with
  | PyNone => false
  | PyBool b => b
  | PyInt z => negb (z =? 0)%Z
  | PyFloat q => negb (Qeq_bool q 0)
  | PyStr s => negb (String.eqb s "")
  | PyList l => match l with [] => false | _ => true end
  end.

(** [isinstance(v, str)]. *)
Definition isinstance_str (v : pyval) : bool :=
  match v with PyStr _ => true | _ => false end.

(** [a or b]. *)
Definition py_or (a b : pyval) : pyval := if py_truthy a then a else b.

(** [d.get(k)] and [d.get(k, dflt)]. *)
Definition dict_get (d : pydict) (k : string) : pyval := default PyNone (d !! k).
Definition dict_get_d (d : pydict) (k : string) (dflt : pyval) : pyval :=
  default dflt (d !! k).

(** ** Strings: [str.lower], [str.strip], slicing *)

Definition is_upper (a : ascii) : bool :=
  let n := nat_of_ascii a in (65 <=? n)%nat && (n <=? 90)%nat.

Definition lower_ascii (a : ascii) : ascii :=
  if is_upper a then ascii_of_nat (nat_of_ascii a + 32) else a.

(** The characters [str.isspace] accepts below 128: TAB, LF, VT, FF, CR,
    the four separators FS, GS, RS, US, and the space. *)
Definition py_isspace (a : ascii) : bool :=
  let n := nat_of_ascii a in
  ((9 <=? n)%nat && (n <=? 13)%nat) || ((28 <=? n)%nat && (n <=? 32)%nat).

Fixpoint lower (s : string) : string :=
  match s with
  | EmptyString => EmptyString
  | String a r => String (lower_ascii a) (lower r)
  end.

Fixpoint lstrip (s : string) : string :=
  match s with
  | EmptyString => EmptyString
  | String a r => if py_isspace a then lstrip r else s
  end.

Definition rstrip (s : string) : string := String.rev (lstrip (String.rev s)).

Definition strip (s : string) : string := rstrip (lstrip s).

(** [s[:n]]. *)
Definition slice_to (n : nat) (s : string) : string := substring 0 n s.

(** ** Exceptions and the two monads *)

Inductive exn : Type :=
| TypeError
| KeyError
| AttributeError
| OverflowError
| InterfaceError
| IntegrityError
| LibraryError.

Inductive outcome (A : Type) : Type :=
| Return (a : A)
| Raise (e : exn).
Arguments Return {A} a.
Arguments Raise {A} e.

#[global] Instance outcome_ret : MRet outcome := fun A a => Return a.
#[global] Instance outcome_bind : MBind outcome := fun A B f o =>
  match o with
  | Return a => f a
  | Raise e => Raise e
  end.

(** [try: body except Exception: handler]. *)
Definition otry {A} (body : outcome A) (handler : exn -> outcome A) : outcome A :=
  match body with
  | Return a => Return a
  | Raise e => handler e
  end.

(** [d[k]] on a dictionary of thresholds. *)
Definition getitem {V} (d : gmap string V) (k : string) : outcome V :=
  match d !! k with
  | Some v => Return v
  | None => Raise KeyError
  end.

(** The state-and-exception monad: the state is threaded through, and
    the state reached at a [raise] is the one the handler sees. *)
Definition M (S A : Type) : Type := S -> outcome A * S.
#[global] Typeclasses Opaque M.

#[global] Instance M_ret {S} : MRet (M S) := fun A a s => (Return a, s).
#[global] Instance M_bind {S} : MBind (M S) := fun A B f m s =>
  match m s with
  | (Return a, s') => f a s'
  | (Raise e, s') => (Raise e, s')
  end.

Definition lift {S A} (o : outcome A) : M S A := fun s => (o, s).
Definition gets {S A} (f : S -> A) : M S A := fun s => (Return (f s), s).
Definition modify {S} (f : S -> S) : M S unit := fun s => (Return tt, f s).

(** [try: body except Exception as e: handler]. *)
Definition try_except {S A} (body : M S A) (handler : exn -> M S A) : M S A :=
  fun s =>
    match body s with
    | (Return a, s') => (Return a, s')
    | (Raise e, s') => handler e s'
    end.

(** ** Dictionary objects

    Records are passed by reference: the heap holds the dictionary
    objects, a reference is an index into it. *)
Abbreviation heap := (list pydict) (only parsing).
Abbreviation ref := nat (only parsing).

(** Reading through a reference. *)
Definition deref (r : ref) : M heap pydict := fun h =>
  match h !! r with
  | Some d => (Return d, h)
  | None => (Raise AttributeError, h)
  end.

(** [d.copy()]: a new object with the same items (a shallow copy). *)
Definition alloc (d : pydict) : M heap ref := fun h => (Return (length h), h ++ [d]).
Definition dict_copy (r : ref) : M heap ref := d ← deref r; alloc d.

(** [d.update({k1: v1, ...})], in place. *)
Definition dict_update (r : ref) (items : list (string * pyval)) : M heap unit :=
  modify (alter (fun d : pydict => foldl (fun acc kv => <[kv.1 := kv.2]> acc) d items) r).

(** ** The sentiment analyzer *)

Module SentimentAnalyzer.

(** TextBlob: [TextBlob(text).sentiment] gives a polarity and a
    subjectivity, or fails inside the library. *)
Class TextBlob := { blob_sentiment : string -> outcome (Q * Q) }.

(** The documented range of the polarity ("-1 to 1"). *)
Definition polarity_in_range `{TextBlob} : Prop :=
  forall s p sub, blob_sentiment s = Return (p, sub) -> (-1 <= p /\ p <= 1)%Q.

Record sentiment : Type := {
  sentiment_score : Q;
  sentiment_polarity : Q;
  sentiment_subjectivity : Q;
  sentiment_category : string;
  confidence : Q;
  cleaned_text : option string
}.

(** [self]: the analyzer holds its thresholds. *)
Record t : Type := { thresholds : gmap string Q }.

Definition default_thresholds : gmap string Q :=
  <["positive" := (1 # 10)%Q]> (<["negative" := (- (1 # 10))%Q]> ∅).

(** [__init__]: [thresholds or {...}]; an empty dictionary is falsy. *)
Definition init (custom : option (gmap string Q)) : t :=
  match custom with
  | Some th => if decide (th = ∅) then {| thresholds := default_thresholds |}
               else {| thresholds := th |}
  | None => {| thresholds := default_thresholds |}
  end.

(** The result of the guard on empty or non-string input. *)
Definition empty_result : sentiment :=
  {| sentiment_score := 0; sentiment_polarity := 0; sentiment_subjectivity := 0;
     sentiment_category := "neutral"; confidence := 0; cleaned_text := None |}.

(** The result of the [except Exception] branch. *)
Definition error_result : sentiment :=
  {| sentiment_score := 0; sentiment_polarity := 0; sentiment_subjectivity := 0;
     sentiment_category := "neutral"; confidence := 0; cleaned_text := Some "" |}.

Definition Qgtb (a b : Q) : bool := negb (Qle_bool a b).
Definition Qltb (a b : Q) : bool := negb (Qle_bool b a).

Section Analyzer.
Context `{TextBlob}.

(** [text.strip()] on the value that passed the guard. *)
Definition str_strip (text : pyval) : outcome string :=
  match text with
  | PyStr s => Return (strip s)
  | _ => Raise AttributeError
  end.

(** The [if/elif/else] that picks the category. *)
Definition categorize (self : t) (polarity : Q) : outcome string :=
  tp ← getitem (thresholds self) "positive";
  if Qgtb polarity tp then Return "positive"
  else
    tn ← getitem (thresholds self) "negative";
    if Qltb polarity tn then Return "negative" else Return "neutral".

(** The body of the [try] block. *)
Definition analyze_body (self : t) (text : pyval) : outcome sentiment :=
  cleaned ← str_strip text;
  '(polarity, subjectivity) ← blob_sentiment cleaned;
  category ← categorize self polarity;
  Return {| sentiment_score := polarity;
             sentiment_polarity := polarity;
             sentiment_subjectivity := subjectivity;
             sentiment_category := category;
             confidence := if negb (String.eqb category "neutral")
                           then Qabs polarity else 1 - Qabs polarity;
             cleaned_text := Some (slice_to 100 cleaned) |}.

Definition analyze_sentiment (self : t) (text : pyval) : outcome sentiment :=
  if negb (py_truthy text) || negb (isinstance_str text)
  then Return empty_result
  else otry (analyze_body self text) (fun _ => Return error_result).

(** The [for] loop of [analyze_tweets]. *)
Fixpoint analyze_loop (self : t) (tweets : list ref) (analyzed_tweets : list ref)
  : M heap (list ref) :=
  match tweets with
  | [] => mret analyzed_tweets
  | tweet :: rest =>
      analyzed ← dict_copy tweet;
      d ← deref tweet;
      let text := py_or (dict_get d "text") (dict_get_d d "content" (PyStr "")) in
      sentiment ← lift (analyze_sentiment self text);
      _ ← dict_update analyzed
            [("sentiment_score", PyFloat (sentiment_score sentiment));
             ("sentiment_polarity", PyFloat (sentiment_polarity sentiment));
             ("sentiment_subjectivity", PyFloat (sentiment_subjectivity sentiment));
             ("sentiment_category", PyStr (sentiment_category sentiment));
             ("sentiment_confidence", PyFloat (confidence sentiment))];
      analyze_loop self rest (analyzed_tweets ++ [analyzed])
  end.

Definition analyze_tweets (self : t) (tweets : list ref) : M heap (list ref) :=
  match tweets with
  | [] => mret []
  | _ => analyze_loop self tweets []
  end.

End Analyzer.

End SentimentAnalyzer.

(** ** The database loader *)

Module DatabaseLoader.

(** *** SQLite values, parameter binding, column affinity *)

Inductive sqlval : Type :=
| SNull
| SInteger (z : Z)
| SReal (q : Q)
| SText (s : string).

(** The built-in functions of SQLite that the statements rely on:
    [DATE(x)] on a stored value ([None] is NULL), the text a REAL value
    takes in a TEXT column, and the number a text counts for in [AVG]. *)
Class SQLite := {
  sql_date : sqlval -> option string;
  real_to_text : Q -> string;
  text_to_real : string -> Q
}.

(** The two clocks read while saving: [datetime.now().isoformat()] and
    SQLite's [CURRENT_TIMESTAMP]. One reading serves a whole call. *)
Record clock : Type := { isoformat_now : string; current_timestamp : string }.

(** How [sqlite3] binds a Python value to a [?]: lists are refused and
    integers must fit in 64 bits. *)
Definition adapt (v : pyval) : outcome sqlval :=
  match v with
  | PyNone => Return SNull
  | PyBool b => Return (SInteger (if b then 1 else 0))
  | PyInt z =>
      if ((- 2 ^ 63 <=? z) && (z <? 2 ^ 63))%Z then Return (SInteger z)
      else Raise OverflowError
  | PyFloat q => Return (SReal q)
  | PyStr s => Return (SText s)
  | PyList _ => Raise InterfaceError
  end.

(** A [NOT NULL] column refusing NULL. *)
Definition not_null {A} (o : option A) : outcome A :=
  match o with
  | Some a => Return a
  | None => Raise IntegrityError
  end.

Definition non_null (v : sqlval) : option sqlval :=
  match v with SNull => None | _ => Some v end.

(** *** The four tables

    The surrogate keys ([id INTEGER PRIMARY KEY AUTOINCREMENT]) are left
    out: no statement embedded here reads them. A table is the list of its
    rows in insertion order. TEXT columns hold the value after TEXT
    affinity; the other columns hold the bound value. *)

Record tweet_row : Type := {
  tweet_id : string;
  created_at : sqlval;
  content : string;
  user_id : string;
  user_name : string;
  user_display_name : option string;
  user_followers : sqlval;
  user_following : sqlval;
  retweet_count : sqlval;
  favorite_count : sqlval;
  reply_count : sqlval;
  is_retweet : sqlval;
  language : option string;
  source : option string;
  sentiment_score : sqlval;
  sentiment_category : option string;
  brand_mentioned : option string;
  collected_at : sqlval;
  processed_at : sqlval;
  created_date : option string
}.

Record brand_row : Type := {
  brand_name : string;
  brand_category : option string;
  brand_created_at : string
}.

Record db : Type := {
  tweets : list tweet_row;
  hashtags : list (string * string);   (* (tweet_id, hashtag) *)
  mentions : list (string * string);   (* (tweet_id, mentioned_user) *)
  brands : list brand_row
}.

(** The connection: what is committed, and what the open transaction
    sees. Statements read and write [working]. *)
Record conn : Type := { committed : db; working : db }.

Definition empty_db : db :=
  {| tweets := []; hashtags := []; mentions := []; brands := [] |}.

(** The connection [__init__] leaves on a new database. *)
Definition connect : conn := {| committed := empty_db; working := empty_db |}.

(** A statement that writes acts on what the transaction sees. *)
Definition on_working (f : db -> db) (c : conn) : conn :=
  {| committed := committed c; working := f (working c) |}.

Definition execute (f : db -> db) : M conn unit := modify (on_working f).

Definition query {A} (f : db -> A) : M conn A :=
  gets (fun c => f (working c)).

Definition commit : M conn unit :=
  modify (fun c => {| committed := working c; working := working c |}).

Definition rollback : M conn unit :=
  modify (fun c => {| committed := committed c; working := committed c |}).

Definition tweet_ids (d : db) : list string := tweet_id <$> tweets d.
Definition brand_names (d : db) : list string := brand_name <$> brands d.

(** [INSERT OR REPLACE INTO tweets]: a row with the same [tweet_id]
    (the UNIQUE column) is deleted before the new one is added. *)
Definition insert_or_replace_tweet (r : tweet_row) (d : db) : db :=
  {| tweets := filter (fun x => tweet_id x ≠ tweet_id r) (tweets d) ++ [r];
     hashtags := hashtags d; mentions := mentions d; brands := brands d |}.

(** [INSERT OR IGNORE INTO hashtags], under [UNIQUE(tweet_id, hashtag)]. *)
Definition insert_or_ignore_hashtag (row : string * string) (d : db) : db :=
  if decide (row ∈ hashtags d) then d
  else {| tweets := tweets d; hashtags := hashtags d ++ [row];
          mentions := mentions d; brands := brands d |}.

(** [INSERT INTO mentions]. *)
Definition insert_mention (row : string * string) (d : db) : db :=
  {| tweets := tweets d; hashtags := hashtags d;
     mentions := mentions d ++ [row]; brands := brands d |}.

(** [INSERT OR IGNORE INTO brands (name)], under [name UNIQUE]. *)
Definition insert_or_ignore_brand (r : brand_row) (d : db) : db :=
  if decide (brand_name r ∈ brand_names d) then d
  else {| tweets := tweets d; hashtags := hashtags d;
          mentions := mentions d; brands := brands d ++ [r] |}.

(** [for x in v]: a list yields its items, a string its characters,
    anything else is not iterable. *)
Definition py_iter (v : pyval) : outcome (list pyval) :=
  match v with
  | PyList l => Return l
  | PyStr s => Return ((fun a => PyStr (String a EmptyString)) <$> list_ascii_of_string s)
  | _ => Raise TypeError
  end.

(** A method of [str] called on a value. *)
Definition as_str (v : pyval) : outcome string :=
  match v with
  | PyStr s => Return s
  | _ => Raise AttributeError
  end.

(** [ORDER BY count DESC]. *)
Definition count_desc (a b : string * nat) : Prop := (b.2 ≤ a.2)%nat.
#[global] Instance count_desc_dec a b : Decision (count_desc a b).
Proof. unfold count_desc. apply _. Defined.

Section Loader.
Context `{SQLite}.

(** TEXT affinity: numbers are stored as their text. *)
Definition text_affinity (v : sqlval) : option string :=
  match v with
  | SNull => None
  | SInteger z => Some (pretty z)
  | SReal q => Some (real_to_text q)
  | SText s => Some s
  end.

(** [SELECT tweet_id FROM tweets WHERE tweet_id = ?] followed by
    [fetchone()]: is there a row? *)
Definition select_tweet_id (key : pyval) : M conn bool :=
  v ← lift (adapt key);
  query (fun d =>
    match text_affinity v with
    | Some k => bool_decide (k ∈ tweet_ids d)
    | None => false
    end).

(** The row an [INSERT ... VALUES (?, ..., ?)] builds from a record: the
    nineteen parameters are bound in order, then the NOT NULL columns are
    checked. *)
Definition tweet_row_of (clk : clock) (tweet : pydict) : outcome tweet_row :=
  p_tweet_id ← adapt (dict_get tweet "tweet_id");
  p_created_at ← adapt (dict_get tweet "created_at");
  p_content ← adapt (py_or (dict_get tweet "text") (dict_get_d tweet "content" (PyStr "")));
  p_user_id ← adapt (dict_get tweet "user_id");
  p_user_name ← adapt (dict_get tweet "user_name");
  p_user_display_name ← adapt (dict_get tweet "user_display_name");
  p_user_followers ← adapt (dict_get_d tweet "user_followers" (PyInt 0));
  p_user_following ← adapt (dict_get_d tweet "user_following" (PyInt 0));
  p_retweet_count ← adapt (dict_get_d tweet "retweet_count" (PyInt 0));
  p_favorite_count ← adapt (dict_get_d tweet "favorite_count" (PyInt 0));
  p_reply_count ← adapt (dict_get_d tweet "reply_count" (PyInt 0));
  p_is_retweet ← adapt (PyInt (if py_truthy (dict_get tweet "is_retweet") then 1 else 0));
  p_language ← adapt (dict_get_d tweet "language" (PyStr "en"));
  p_source ← adapt (dict_get_d tweet "source" (PyStr ""));
  p_sentiment_score ← adapt (dict_get tweet "sentiment_score");
  p_sentiment_category ← adapt (dict_get tweet "sentiment_category");
  p_brand_mentioned ← adapt (dict_get tweet "brand_mentioned");
  p_collected_at ← adapt (dict_get_d tweet "collected_at" (PyStr (isoformat_now clk)));
  p_processed_at ← adapt (PyStr (isoformat_now clk));
  c_tweet_id ← not_null (text_affinity p_tweet_id);
  c_created_at ← not_null (non_null p_created_at);
  c_content ← not_null (text_affinity p_content);
  c_user_id ← not_null (text_affinity p_user_id);
  c_user_name ← not_null (text_affinity p_user_name);
  Return {| tweet_id := c_tweet_id;
            created_at := c_created_at;
            content := c_content;
            user_id := c_user_id;
            user_name := c_user_name;
            user_display_name := text_affinity p_user_display_name;
            user_followers := p_user_followers;
            user_following := p_user_following;
            retweet_count := p_retweet_count;
            favorite_count := p_favorite_count;
            reply_count := p_reply_count;
            is_retweet := p_is_retweet;
            language := text_affinity p_language;
            source := text_affinity p_source;
            sentiment_score := p_sentiment_score;
            sentiment_category := text_affinity p_sentiment_category;
            brand_mentioned := text_affinity p_brand_mentioned;
            collected_at := p_collected_at;
            processed_at := p_processed_at;
            created_date := sql_date c_created_at |}.

Definition insert_tweet (clk : clock) (tweet : pydict) : M conn unit :=
  row ← lift (tweet_row_of clk tweet);
  execute (insert_or_replace_tweet row).

(** The loop over [hashtags]. A NULL [tweet_id] would be ignored by
    [INSERT OR IGNORE]. *)
Fixpoint save_hashtags (tweet_id : pyval) (hashtags : list pyval) : M conn unit :=
  match hashtags with
  | [] => mret tt
  | hashtag :: rest =>
      _ ← (if py_truthy hashtag && isinstance_str hashtag then
             s ← lift (as_str hashtag);
             p_tweet_id ← lift (adapt tweet_id);
             match text_affinity p_tweet_id with
             | Some k => execute (insert_or_ignore_hashtag (k, strip (lower s)))
             | None => mret tt
             end
           else mret tt);
      save_hashtags tweet_id rest
  end.

(** The loop over [mentions]. *)
Fixpoint save_mentions (tweet_id : pyval) (mentions : list pyval) : M conn unit :=
  match mentions with
  | [] => mret tt
  | mention :: rest =>
      _ ← (if py_truthy mention && isinstance_str mention then
             s ← lift (as_str mention);
             p_tweet_id ← lift (adapt tweet_id);
             k ← lift (not_null (text_affinity p_tweet_id));
             execute (insert_mention (k, strip s))
           else mret tt);
      save_mentions tweet_id rest
  end.

(** The body of the loop over the batch; the result tells whether the
    record was inserted ([false] stands for the [continue]). *)
Definition save_one (clk : clock) (tweet : pydict) : M conn bool :=
  found ← select_tweet_id (dict_get tweet "tweet_id");
  if found : bool then mret false
  else
    _ ← insert_tweet clk tweet;
    let tweet_id := dict_get tweet "tweet_id" in
    hashtags ← lift (py_iter (dict_get_d tweet "hashtags" (PyList [])));
    _ ← save_hashtags tweet_id hashtags;
    mentions ← lift (py_iter (dict_get_d tweet "mentions" (PyList [])));
    _ ← save_mentions tweet_id mentions;
    mret true.

Fixpoint save_loop (clk : clock) (tweets_data : list pydict) (saved_count : nat)
  : M conn nat :=
  match tweets_data with
  | [] => mret saved_count
  | tweet :: rest =>
      inserted ← save_one clk tweet;
      save_loop clk rest (if inserted : bool then S saved_count else saved_count)
  end.

(** [SELECT DISTINCT brand_mentioned FROM tweets WHERE brand_mentioned
    IS NOT NULL AND brand_mentioned != '']; the order of the result is
    not fixed by SQL. *)
Definition select_distinct_brands (d : db) : list string :=
  remove_dups (filter (fun b => b ≠ "") (omap brand_mentioned (tweets d))).

Fixpoint insert_brands (clk : clock) (brands : list string) : M conn unit :=
  match brands with
  | [] => mret tt
  | brand :: rest =>
      _ ← (if negb (String.eqb brand "") then
             execute (insert_or_ignore_brand
                        {| brand_name := strip brand; brand_category := None;
                           brand_created_at := current_timestamp clk |})
           else mret tt);
      insert_brands clk rest
  end.

Definition _update_brand_stats (clk : clock) : M conn unit :=
  try_except
    (brands ← query select_distinct_brands;
     _ ← insert_brands clk brands;
     commit)
    (fun e => mret tt).

(** The [try] block of [save_tweets]. *)
Definition save_body (clk : clock) (tweets_data : list pydict) : M conn nat :=
  saved_count ← save_loop clk tweets_data 0;
  _ ← commit;
  _ ← _update_brand_stats clk;
  mret saved_count.

Definition save_tweets (clk : clock) (tweets_data : list pydict) : M conn nat :=
  match tweets_data with
  | [] => mret 0
  | _ => try_except (save_body clk tweets_data) (fun e => _ ← rollback; mret 0)
  end.

(** The states the loader can be in: a new database, then any number
    of calls of [save_tweets]. *)
Inductive reachable : conn -> Prop :=
| reachable_connect : reachable connect
| reachable_save clk tweets_data c :
    reachable c -> reachable (save_tweets clk tweets_data c).2.

(** *** Daily statistics *)

Record daily_stats : Type := {
  total_tweets : nat;
  unique_users : nat;
  avg_retweets : Q;
  avg_favorites : Q;
  top_brands : list (string * nat);
  top_hashtags : list (string * nat)
}.

(** [WHERE DATE(created_at) = ?]. *)
Definition on_date (date : string) (r : tweet_row) : bool :=
  bool_decide (sql_date (created_at r) = Some date).

(** [FROM tweets WHERE DATE(created_at) = ?]. *)
Definition rows_on_date (date : string) (d : db) : list tweet_row :=
  filter (fun r => on_date date r = true) (tweets d).

(** The number a value counts for in an aggregate; NULL is skipped. *)
Definition sql_number (v : sqlval) : option Q :=
  match v with
  | SNull => None
  | SInteger z => Some (inject_Z z)
  | SReal q => Some q
  | SText s => Some (text_to_real s)
  end.

(** [AVG(x)]: NULL when no row has a value. *)
Definition sql_avg (vals : list sqlval) : option Q :=
  match omap sql_number vals with
  | [] => None
  | nums => Some (foldr Qplus 0 nums / inject_Z (Z.of_nat (length nums)))%Q
  end.

(** [float(x) if row and x else 0.0]. *)
Definition float_or_zero (x : option Q) : Q :=
  match x with
  | Some q => if Qeq_bool q 0 then 0%Q else q
  | None => 0%Q
  end.

(** [GROUP BY k ORDER BY COUNT( * ) DESC LIMIT n]; the order among equal
    counts is not fixed by SQL. *)
Definition top_counts (n : nat) (keys : list string) : list (string * nat) :=
  take n (merge_sort count_desc
            ((fun k => (k, length (filter (fun x => x = k) keys))) <$> remove_dups keys)).

(** [hashtags h JOIN tweets t ON h.tweet_id = t.tweet_id WHERE
    DATE(t.created_at) = ?], projected on the hashtag. *)
Definition hashtags_on_date (date : string) (d : db) : list string :=
  h ← hashtags d;
  t ← tweets d;
  if bool_decide (h.1 = tweet_id t) && on_date date t then [h.2] else [].

(** [date] is [None] when the argument is left out; [None] as a result
    stands for the empty dictionary of the [except] branch. *)
Definition get_daily_stats (today : string) (date : option string)
  : M conn (option daily_stats) :=
  let date := match date with
              | Some s => if negb (String.eqb s "") then s else today
              | None => today
              end in
  try_except
    (row ← query (fun d =>
       let rows := rows_on_date date d in
       (length rows,
        length (remove_dups (user_id <$> rows)),
        sql_avg (retweet_count <$> rows),
        sql_avg (favorite_count <$> rows)));
     brands ← query (fun d =>
       top_counts 5 (filter (fun b => b ≠ "")
                       (omap brand_mentioned (rows_on_date date d))));
     tags ← query (fun d => top_counts 10 (hashtags_on_date date d));
     mret (Some {| total_tweets := row.1.1.1;
                   unique_users := row.1.1.2;
                   avg_retweets := float_or_zero row.1.2;
                   avg_favorites := float_or_zero row.2;
                   top_brands := brands;
                   top_hashtags := tags |}))
    (fun e => mret None).

End Loader.

End DatabaseLoader.

(** ** Sample collaborators and records

    A small lexicon standing for TextBlob, an SQLite whose [DATE] takes the
    first ten characters of an ISO timestamp, and a few raw records. *)

Module Samples.
Import SentimentAnalyzer DatabaseLoader.

Definition lexicon_blob : TextBlob :=
  {| blob_sentiment s :=
       if String.eqb s "I absolutely love this!" then Return ((1 # 2)%Q, (3 # 5)%Q)
       else if String.eqb s "crash" then Raise LibraryError
       else Return (0%Q, 0%Q) |}.

Definition iso_sqlite : SQLite :=
  {| sql_date v :=
       match v with
       | SText s => if (10 <=? String.length s)%nat then Some (substring 0 10 s) else None
       | _ => None
       end;
     real_to_text q := "0.0";
     text_to_real s := 0%Q |}.

Definition noon : clock :=
  {| isoformat_now := "2024-01-15T12:00:00"; current_timestamp := "2024-01-15 12:00:00" |}.

Definition evening : clock :=
  {| isoformat_now := "2024-01-15T19:00:00"; current_timestamp := "2024-01-15 19:00:00" |}.

(** A complete record: padded brand, repeated and malformed tags. *)
Definition tesla_tweet : pydict :=
  <["tweet_id" := PyStr "a1"]> (<["created_at" := PyStr "2024-01-15T10:30:00"]>
  (<["content" := PyStr "Loving my new Tesla!"]> (<["user_id" := PyStr "u1"]>
  (<["user_name" := PyStr "alice"]> (<["brand_mentioned" := PyStr " Tesla "]>
  (<["hashtags" := PyList [PyStr " Tesla"; PyStr "EV"; PyStr "tesla"; PyStr ""; PyInt 3]]>
  (<["mentions" := PyList [PyStr " @bob "; PyStr "@bob"; PyNone]]> ∅))))))).

(** A record that the [tweets] table refuses: no [created_at]. *)
Definition broken_tweet : pydict := <["tweet_id" := PyStr "a2"]> ∅.

(** A record that already carries a sentiment score. *)
Definition scored_tweet : pydict :=
  <["tweet_id" := PyStr "a3"]> (<["text" := PyStr "crash"]>
  (<["sentiment_score" := PyInt 5]> ∅)).

End Samples.

(** ** Specification-side definitions *)

Module Spec.
Import SentimentAnalyzer DatabaseLoader.

(** The confidence measure as specified: [abs(score)] for a positive or
    negative category, [1 - abs(score)] for a neutral one. *)
Definition confidence_as_specified (r : sentiment) : Prop :=
  ((SentimentAnalyzer.sentiment_category r = "positive"
    ∨ SentimentAnalyzer.sentiment_category r = "negative") ->
   (confidence r == Qabs (SentimentAnalyzer.sentiment_score r))%Q)
  ∧ (SentimentAnalyzer.sentiment_category r = "neutral" ->
     (confidence r == 1 - Qabs (SentimentAnalyzer.sentiment_score r))%Q).

(** The five keys [analyze_tweets] writes. *)
Definition sentiment_keys : list string :=
  ["sentiment_score"; "sentiment_polarity"; "sentiment_subjectivity";
   "sentiment_category"; "sentiment_confidence"].

(** The text [analyze_tweets] classifies for a record. *)
Definition text_of (d : pydict) : pyval :=
  py_or (dict_get d "text") (dict_get_d d "content" (PyStr "")).

Section LoaderSpec.
Context `{SQLite}.

(** The identity of a record as the [tweets] table sees it: the bound
    [tweet_id] under TEXT affinity ([None] when it is NULL or cannot be
    bound). *)
Definition key_of (tweet : pydict) : option string :=
  match adapt (dict_get tweet "tweet_id") with
  | Return v => text_affinity v
  | Raise _ => None
  end.

(** First write wins: the records of a batch that are not skipped, given
    the identities already stored. *)
Fixpoint first_writes (seen : list string) (batch : list pydict) : list pydict :=
  match batch with
  | [] => []
  | t :: rest =>
      match key_of t with
      | Some k =>
          if decide (k ∈ seen) then first_writes seen rest
          else t :: first_writes (seen ++ [k]) rest
      | None => t :: first_writes seen rest
      end
  end.

(** Tags lowercased and trimmed, empty and non-text entries dropped. *)
Definition normalized_tags (entries : list pyval) : list string :=
  omap (fun v => match v with
                 | PyStr s => if decide (s = "") then None else Some (strip (lower s))
                 | _ => None
                 end) entries.

(** Mentions trimmed, empty and non-text entries dropped. *)
Definition normalized_mentions (entries : list pyval) : list string :=
  omap (fun v => match v with
                 | PyStr s => if decide (s = "") then None else Some (strip s)
                 | _ => None
                 end) entries.

(** The Tags and Mentions rows a record asks for. *)
Definition tag_rows_of (t : pydict) : list (string * string) :=
  match key_of t, py_iter (dict_get_d t "hashtags" (PyList [])) with
  | Some k, Return entries => (fun h => (k, h)) <$> normalized_tags entries
  | _, _ => []
  end.

Definition mention_rows_of (t : pydict) : list (string * string) :=
  match key_of t, py_iter (dict_get_d t "mentions" (PyList [])) with
  | Some k, Return entries => (fun m => (k, m)) <$> normalized_mentions entries
  | _, _ => []
  end.

End LoaderSpec.

(** Rows added one by one to a relation with a uniqueness constraint on
    the whole row, repeated rows being ignored. *)
Definition add_rows (rows new : list (string * string)) : list (string * string) :=
  foldl (fun acc row => if decide (row ∈ acc) then acc else acc ++ [row]) rows new.

(** The writes of the loader as functions on a database. *)
Definition add_tweet (r : tweet_row) (d : db) : db :=
  {| tweets := tweets d ++ [r]; hashtags := hashtags d;
     mentions := mentions d; brands := brands d |}.

Definition add_hashtags (rows : list (string * string)) (d : db) : db :=
  {| tweets := tweets d; hashtags := add_rows (hashtags d) rows;
     mentions := mentions d; brands := brands d |}.

Definition add_mentions (rows : list (string * string)) (d : db) : db :=
  {| tweets := tweets d; hashtags := hashtags d;
     mentions := mentions d ++ rows; brands := brands d |}.

Definition add_brands (clk : clock) (names : list string) (d : db) : db :=
  foldl (fun acc b =>
           insert_or_ignore_brand
             {| brand_name := b; brand_category := None;
                brand_created_at := current_timestamp clk |} acc) d names.

Section LoaderEffects.
Context `{SQLite}.

(** What a record that is not skipped leaves in the database. *)
Definition stored (r : tweet_row) (t : pydict) (d : db) : db :=
  add_mentions (mention_rows_of t) (add_hashtags (tag_rows_of t) (add_tweet r d)).

(** The effect of a loop that went through: the rows of the first
    writes were added, in order, and nothing else changed. *)
Definition batch_stored (clk : clock) (batch : list pydict) (rows : list tweet_row)
    (d d' : db) : Prop :=
  Forall2 (fun t r => tweet_row_of clk t = Return r)
          (first_writes (tweet_ids d) batch) rows
  ∧ tweets d' = tweets d ++ rows
  ∧ hashtags d' = add_rows (hashtags d) (first_writes (tweet_ids d) batch ≫= tag_rows_of)
  ∧ mentions d' = mentions d ++ (first_writes (tweet_ids d) batch ≫= mention_rows_of)
  ∧ brands d' = brands d.

End LoaderEffects.


(** The database after [_update_brand_stats]. *)
Definition maintained (clk : clock) (w : db) : db :=
  add_brands clk (strip <$> filter (fun b => b ≠ "") (select_distinct_brands w)) w.

(** The connection a call leaves when the loop went through to [c1],
    and when it raised. *)
Definition saved (clk : clock) (c1 : conn) : conn :=
  {| committed := maintained clk (working c1); working := maintained clk (working c1) |}.

Definition rolled_back (c : conn) : conn :=
  {| committed := committed c; working := committed c |}.

(** Nothing is pending on the connection. *)
Definition clean (c : conn) : Prop := working c = committed c.

(** Tag uniqueness: a (tweet_id, hashtag) pair occurs at most once. *)
Definition tags_unique (d : db) : Prop :=
  ∀ row : string * string, length (filter (fun x => x = row) (hashtags d)) <= 1.


(** Registry completeness with the trimmed name. *)
Definition registry_has_trimmed_names (d : db) : Prop :=
  ∀ b, Some b ∈ brand_mentioned <$> tweets d -> b ≠ "" -> strip b ∈ brand_names d.


(** What holds of every connection the loader can reach. *)
Definition sound (c : conn) : Prop :=
  clean c ∧ NoDup (hashtags (working c)) ∧ registry_has_trimmed_names (working c).


(** A record with the five sentiment items written over it. *)
Definition with_sentiment (s : sentiment) (d : pydict) : pydict :=
  <["sentiment_confidence" := PyFloat (confidence s)]>
  (<["sentiment_category" := PyStr (SentimentAnalyzer.sentiment_category s)]>
  (<["sentiment_subjectivity" := PyFloat (sentiment_subjectivity s)]>
  (<["sentiment_polarity" := PyFloat (sentiment_polarity s)]>
  (<["sentiment_score" := PyFloat (SentimentAnalyzer.sentiment_score s)]> d)))).

(** The relation between an input record and the record
    [analyze_tweets] makes for it. *)
Definition analyzed_from `{TextBlob} (self : t) (h : list pydict) (r : nat)
    (d' : pydict) : Prop :=
  ∃ d s, h !! r = Some d
         ∧ analyze_sentiment self (text_of d) = Return s
         ∧ d' = with_sentiment s d.

End Spec.

(** ** The utility function of the analyzer module *)

Module SentimentUtil.
Import SentimentAnalyzer.

(** [analyze_tweet_sentiment]: an analyzer with the default thresholds,
    asked once. *)
Definition analyze_tweet_sentiment `{TextBlob} (text : pyval) : outcome sentiment :=
  let analyzer := init None in
  analyze_sentiment analyzer text.

End SentimentUtil.

(** ** Further invariants of the stored relations *)

Module Invariants.
Import DatabaseLoader Spec.

(** Identity uniqueness: no two stored records share a [tweet_id]. *)
Definition ids_unique (d : db) : Prop := NoDup (tweet_ids d).

(** Every tag row and every mention row belongs to a stored record. *)
Definition entities_owned (d : db) : Prop :=
  (∀ row, row ∈ hashtags d -> row.1 ∈ tweet_ids d)
  ∧ (∀ row, row ∈ mentions d -> row.1 ∈ tweet_ids d).

(** No two registry rows share a name. *)
Definition registry_names_unique (d : db) : Prop := NoDup (brand_names d).

(** Every registry name is the trimmed brand of a stored record. *)
Definition registry_sound (d : db) : Prop :=
  ∀ n, n ∈ brand_names d ->
       ∃ b, Some b ∈ brand_mentioned <$> tweets d ∧ b ≠ "" ∧ n = strip b.

(** Stored tags are trimmed and have no upper-case letter; stored
    mentions and registry names are trimmed. *)
Definition entities_normalized (d : db) : Prop :=
  (∀ row, row ∈ hashtags d -> strip row.2 = row.2 ∧ lower row.2 = row.2)
  ∧ (∀ row, row ∈ mentions d -> strip row.2 = row.2)
  ∧ (∀ n, n ∈ brand_names d -> strip n = n).

Definition consistent (c : conn) : Prop :=
  clean c
  ∧ ids_unique (working c)
  ∧ entities_owned (working c)
  ∧ registry_names_unique (working c)
  ∧ registry_sound (working c)
  ∧ entities_normalized (working c).

(** One of the columns declared [NOT NULL] without a default has no
    value in the record. *)
Definition required_missing (t : pydict) : Prop :=
  dict_get t "tweet_id" = PyNone
  ∨ dict_get t "created_at" = PyNone
  ∨ dict_get t "user_id" = PyNone
  ∨ dict_get t "user_name" = PyNone.

End Invariants.

(** ** Rankings *)

Module Rankings.
Import DatabaseLoader.

(** The number of times a key occurs. *)
Definition occurrences (k : string) (keys : list string) : nat :=
  length (filter (fun x => x = k) keys).

(** [l] is a ranking of the [n] most frequent keys: it lists distinct
    keys with their numbers of occurrences, the most frequent first, as
    many as there are up to [n], and no key left out occurs more often
    than a listed one. *)
Definition ranking (n : nat) (keys : list string) (l : list (string * nat)) : Prop :=
  length l = min n (length (remove_dups keys))
  ∧ NoDup l.*1
  ∧ Sorted count_desc l
  ∧ (∀ k m, (k, m) ∈ l -> k ∈ keys ∧ m = occurrences k keys)
  ∧ (∀ k, k ∈ keys -> k ∉ l.*1 -> ∀ k' m', (k', m') ∈ l -> occurrences k keys <= m').

End Rankings.

(** ** Saving with sentiment analysis *)

Module SentimentLoader.
Import SentimentAnalyzer DatabaseLoader.

(** [from src.transform.sentiment_analyzer import SentimentAnalyzer]:
    whether the import succeeds is a fact of the installation. *)
Class Installation := { import_sentiment_analyzer : outcome unit }.

(** The loader with the records it is given: the dictionary objects and
    the connection. *)
Definition on_heap {A} (m : M (list pydict) A) : M (list pydict * conn) A :=
  fun s => let '(o, h) := m s.1 in (o, (h, s.2)).

Definition on_conn {A} (m : M conn A) : M (list pydict * conn) A :=
  fun s => let '(o, c) := m s.2 in (o, (s.1, c)).

(** The records a list refers to, as [save_tweets] reads them. *)
Fixpoint deref_all (tweets : list ref) : M heap (list pydict) :=
  match tweets with
  | [] => mret []
  | tweet :: rest =>
      d ← deref tweet;
      ds ← deref_all rest;
      mret (d :: ds)
  end.

Section WithSentiment.
Context `{TextBlob} `{SQLite} `{Installation}.

(** Both [except] branches only log. *)
Definition save_tweets_with_sentiment (clk : clock) (tweets_data : list ref)
    (analyze_sentiment : bool) : M (list pydict * conn) nat :=
  match tweets_data with
  | [] => mret 0
  | _ =>
      tweets_data ←
        (if analyze_sentiment then
           try_except
             (_ ← lift import_sentiment_analyzer;
              let analyzer := init None in
              on_heap (analyze_tweets analyzer tweets_data))
             (fun e => mret tweets_data)
         else mret tweets_data);
      records ← on_heap (deref_all tweets_data);
      on_conn (save_tweets clk records)
  end.

End WithSentiment.

End SentimentLoader.

(** An installation with the analyzer, and one without. *)
Module Installations.
Import SentimentLoader.

Definition complete : Installation := {| import_sentiment_analyzer := Return tt |}.
Definition bare : Installation := {| import_sentiment_analyzer := Raise AttributeError |}.

End Installations.

(** * Properties of the sentiment analyzer *)

Module AnalyzerFacts.
Import SentimentAnalyzer Samples Spec.

Section Facts.
Context `{TextBlob}.

(** The guard sends exactly the empty string and the non-strings to the
    early [return]. *)
Lemma guard_spec (text : pyval) :
  negb (py_truthy text) || negb (isinstance_str text) = true
  <-> (text = PyStr "" ∨ isinstance_str text = false).
Proof.
  destruct text as [| b | z | q | s | l]; simpl;
    try (rewrite ?orb_true_r; split; [intros _; by right | done]).
  destruct s as [| a s]; simpl.
  - split; [intros _; by left | done].
  - split; [done | intros [[=] | [=]]].
Qed.

Lemma analyze_sentiment_guarded (self : t) (text : pyval) :
  text = PyStr "" ∨ isinstance_str text = false ->
  analyze_sentiment self text = Return empty_result.
Proof.
  intros Hg. apply guard_spec in Hg. unfold analyze_sentiment. by rewrite Hg.
Qed.

Lemma analyze_sentiment_tried (self : t) (text : pyval) :
  ¬ (text = PyStr "" ∨ isinstance_str text = false) ->
  analyze_sentiment self text
  = otry (analyze_body self text) (fun _ => Return error_result).
Proof.
  intros Hg. unfold analyze_sentiment.
  destruct (negb (py_truthy text) || negb (isinstance_str text)) eqn:E; [| done].
  apply guard_spec in E. contradiction.
Qed.

(** The category is one of the three names, picked by the thresholds. *)
Lemma categorize_names (self : t) (p : Q) (c : string) :
  categorize self p = Return c ->
  c = "positive" ∨ c = "negative" ∨ c = "neutral".
Proof.
  unfold categorize, getitem, mbind, outcome_bind.
  destruct (thresholds self !! "positive") as [tp |]; [| done].
  destruct (Qgtb p tp); [intros [= <-]; by left |].
  destruct (thresholds self !! "negative") as [tn |]; [| done].
  destruct (Qltb p tn); intros [= <-]; auto.
Qed.

(** What the [try] block returns when nothing fails inside it. *)
Lemma analyze_body_returns (self : t) (text : pyval) (r : sentiment) :
  analyze_body self text = Return r ->
  ∃ s p sub c,
    text = PyStr s ∧ blob_sentiment (strip s) = Return (p, sub)
    ∧ categorize self p = Return c
    ∧ r = {| sentiment_score := p; sentiment_polarity := p;
             sentiment_subjectivity := sub; sentiment_category := c;
             confidence := if negb (String.eqb c "neutral")
                           then Qabs p else (1 - Qabs p)%Q;
             cleaned_text := Some (slice_to 100 (strip s)) |}.
Proof.
  unfold analyze_body, str_strip, mbind, outcome_bind.
  destruct text as [| | | | s |]; try done.
  destruct (blob_sentiment (strip s)) as [[p sub] |] eqn:Eb; [| done].
  destruct (categorize self p) as [c |] eqn:Ec; [| done].
  intros [= <-]. by exists s, p, sub, c.
Qed.

Lemma analyze_body_confidence (self : t) (text : pyval) (r : sentiment) :
  analyze_body self text = Return r -> confidence_as_specified r.
Proof.
  intros (s & p & sub & c & -> & _ & Hc & ->)%analyze_body_returns.
  apply categorize_names in Hc.
  unfold confidence_as_specified; simpl.
  destruct Hc as [-> | [-> | ->]]; simpl; split;
    first [ intros _; reflexivity | intros [[=] | [=]] | intros [=] ].
Qed.

(** The three ways [analyze_sentiment] produces its result. *)
Lemma analyze_sentiment_cases (self : t) (text : pyval) :
  ((text = PyStr "" ∨ isinstance_str text = false)
   ∧ analyze_sentiment self text = Return empty_result)
  ∨ (¬ (text = PyStr "" ∨ isinstance_str text = false)
     ∧ (∃ e, analyze_body self text = Raise e)
     ∧ analyze_sentiment self text = Return error_result)
  ∨ (¬ (text = PyStr "" ∨ isinstance_str text = false)
     ∧ ∃ r, analyze_body self text = Return r
            ∧ analyze_sentiment self text = Return r).
Proof.
  destruct (negb (py_truthy text) || negb (isinstance_str text)) eqn:E;
    [apply guard_spec in E as Hg
    | assert (Hg : ¬ (text = PyStr "" ∨ isinstance_str text = false))
        by (intros Hg%guard_spec; congruence)].
  - left. split; [done |]. by apply analyze_sentiment_guarded.
  - right. rewrite (analyze_sentiment_tried self text Hg).
    destruct (analyze_body self text) as [r | e] eqn:Eb; simpl.
    + right. split; [done |]. by exists r.
    + left. split; [done |]. split; [by exists e | done].
Qed.

(** C4. Whatever the input, [analyze_sentiment] returns (it never
    raises); the score lies in [-1, 1] as long as TextBlob keeps its
    polarity there; the empty string and every non-string give the
    category neutral and the score 0.0; and when the analysis fails
    inside, the neutral result with score 0.0 is returned. *)
Theorem analyze_sentiment_total_in_range (self : t) (text : pyval) :
  polarity_in_range ->
  ∃ r, analyze_sentiment self text = Return r
       ∧ (-1 <= sentiment_score r ∧ sentiment_score r <= 1)%Q
       ∧ ((text = PyStr "" ∨ isinstance_str text = false) ->
          sentiment_category r = "neutral" ∧ sentiment_score r = 0%Q)
       ∧ (∀ e, ¬ (text = PyStr "" ∨ isinstance_str text = false) ->
               analyze_body self text = Raise e ->
               sentiment_category r = "neutral" ∧ sentiment_score r = 0%Q).
Proof.
  intros Hrange.
  destruct (analyze_sentiment_cases self text)
    as [[Hg ->] | [(Hg & [e He] & ->) | (Hg & r & Hr & ->)]].
  - exists empty_result. simpl. repeat split; done.
  - exists error_result. simpl. repeat split; done.
  - exists r. split; [done |].
    destruct (analyze_body_returns _ _ _ Hr) as (s & p & sub & c & -> & Hb & _ & ->).
    simpl. split; [by apply (Hrange (strip s) p sub) |].
    split; [intros; contradiction |].
    intros e _ He. rewrite He in Hr. discriminate.
Qed.

(** C5 (amended). On the empty string and on non-strings the confidence
    is 0.0, and so it is when the analysis fails inside; on every other
    input the confidence follows the specified measure. *)
Theorem analyze_sentiment_confidence (self : t) (text : pyval) :
  ∃ r, analyze_sentiment self text = Return r
       ∧ (((text = PyStr "" ∨ isinstance_str text = false)
           ∧ confidence r = 0%Q ∧ sentiment_category r = "neutral")
          ∨ (¬ (text = PyStr "" ∨ isinstance_str text = false)
             ∧ (∃ e, analyze_body self text = Raise e)
             ∧ confidence r = 0%Q ∧ sentiment_category r = "neutral")
          ∨ (¬ (text = PyStr "" ∨ isinstance_str text = false)
             ∧ analyze_body self text = Return r
             ∧ confidence_as_specified r)).
Proof.
  destruct (analyze_sentiment_cases self text)
    as [[Hg ->] | [(Hg & He & ->) | (Hg & r & Hr & ->)]].
  - exists empty_result. split; [done |]. by left.
  - exists error_result. split; [done |]. right; left. done.
  - exists r. split; [done |]. right; right.
    repeat split; try done; by apply (analyze_body_confidence self text).
Qed.

(** *** [analyze_tweets] on the heap of records *)

Lemma analyze_sentiment_returns (self : t) (text : pyval) :
  ∃ r, analyze_sentiment self text = Return r.
Proof.
  destruct (analyze_sentiment_cases self text)
    as [[_ ->] | [(_ & _ & ->) | (_ & r & _ & ->)]]; eauto.
Qed.

Lemma Forall2_impl_with {A B} (R : A -> Prop) (P Q : A -> B -> Prop) l k :
  Forall R l -> Forall2 P l k -> (∀ x y, R x -> P x y -> Q x y) -> Forall2 Q l k.
Proof.
  intros HR HP HQ. induction HP as [| x y l k Hxy HP IH]; [constructor |].
  apply Forall_cons in HR as [Hx HR]. constructor; auto.
Qed.

Lemma alter_new_object (f : pydict -> pydict) (h : list pydict) (d : pydict) :
  alter f (length h) (h ++ [d]) = h ++ [f d].
Proof.
  replace (length h) with (length h + 0) by lia.
  by rewrite alter_app_r.
Qed.

Lemma with_sentiment_other (s : sentiment) (d : pydict) (k : string) :
  k ∉ sentiment_keys -> with_sentiment s d !! k = d !! k.
Proof.
  intros Hk. unfold with_sentiment.
  rewrite !lookup_insert_ne; [done | intros <-; apply Hk; unfold sentiment_keys; set_solver ..].
Qed.

Lemma analyze_loop_spec (self : t) (tweets : list nat) :
  ∀ (acc : list nat) (h : list pydict),
    Forall (fun r => r < length h) tweets ->
    ∃ ds, Forall2 (analyzed_from self h) tweets ds
          ∧ analyze_loop self tweets acc h
            = (Return (acc ++ seq (length h) (length tweets)), h ++ ds).
Proof.
  induction tweets as [| tweet rest IH]; intros acc h Hb.
  - exists []. split; [constructor |]. simpl. by rewrite !app_nil_r.
  - apply Forall_cons in Hb as [Ht Hrest].
    destruct (lookup_lt_is_Some_2 h tweet Ht) as [d Hd].
    destruct (analyze_sentiment_returns self (text_of d)) as [s Hs].
    destruct (IH (acc ++ [length h]) (h ++ [with_sentiment s d])) as (ds & Hds & Hrun).
    { eapply Forall_impl; [exact Hrest |]. intros r Hr. simpl in Hr.
      rewrite length_app. simpl. lia. }
    exists (with_sentiment s d :: ds). split.
    + constructor; [by exists d, s |].
      eapply Forall2_impl_with; [exact Hrest | exact Hds |].
      intros r d' Hr (d0 & s0 & Hl & Hs0 & ->). exists d0, s0. split; [| done].
      apply lookup_app_Some in Hl as [Hl | [Hlen Hl]]; [done | simpl in Hr; lia].
    + cbn [analyze_loop]. unfold mbind, M_bind, dict_copy, deref, alloc.
      unfold mbind, M_bind. rewrite Hd.
      rewrite (lookup_app_l_Some _ _ _ _ Hd).
      unfold lift. fold (text_of d). rewrite Hs.
      unfold dict_update, modify. rewrite alter_new_object. simpl foldl.
      fold (with_sentiment s d). rewrite Hrun.
      rewrite length_app, <- !app_assoc. simpl.
      by rewrite Nat.add_1_r.
Qed.

(** C10 (amended). On a list of references to records of the heap,
    [analyze_tweets] returns as many references, in the same order, each to
    a new record; every record that was on the heap, the inputs among
    them, is left as it was; and the record made for an input agrees with
    it on every key other than the five sentiment keys, which hold the
    result of [analyze_sentiment] on its text. *)
Theorem analyze_tweets_copies (self : t) (tweets : list nat) (h : list pydict) :
  Forall (fun r => r < length h) tweets ->
  ∃ out h',
    analyze_tweets self tweets h = (Return out, h')
    ∧ length out = length tweets
    ∧ (∀ r d, h !! r = Some d -> h' !! r = Some d)
    ∧ (∀ i r, tweets !! i = Some r ->
         ∃ r' d d' s,
           out !! i = Some r' ∧ length h <= r'
           ∧ h !! r = Some d ∧ h' !! r' = Some d'
           ∧ analyze_sentiment self (text_of d) = Return s
           ∧ (∀ k, k ∉ sentiment_keys -> d' !! k = d !! k)
           ∧ d' !! "sentiment_score" = Some (PyFloat (sentiment_score s))
           ∧ d' !! "sentiment_polarity" = Some (PyFloat (sentiment_polarity s))
           ∧ d' !! "sentiment_subjectivity" = Some (PyFloat (sentiment_subjectivity s))
           ∧ d' !! "sentiment_category" = Some (PyStr (sentiment_category s))
           ∧ d' !! "sentiment_confidence" = Some (PyFloat (confidence s))).
Proof.
  intros Hb.
  destruct (analyze_loop_spec self tweets [] h Hb) as (ds & Hds & Hrun).
  exists (seq (length h) (length tweets)), (h ++ ds). split; [| split; [| split]].
  - destruct tweets; [| exact Hrun].
    apply Forall2_nil_inv_l in Hds as ->. simpl. by rewrite app_nil_r.
  - apply length_seq.
  - intros r d Hd. by apply lookup_app_l_Some.
  - intros i r Hi.
    destruct (Forall2_lookup_l _ _ _ _ _ Hds Hi) as (d' & Hd' & d & s & Hd & Hs & ->).
    exists (length h + i), d, (with_sentiment s d), s.
    split; [| split; [lia | split; [done | split; [| split; [done | split]]]]].
    + apply lookup_seq. split; [done |]. by apply lookup_lt_Some in Hi.
    + rewrite lookup_app_r by lia. by replace (length h + i - length h) with i by lia.
    + intros k. apply with_sentiment_other.
    + unfold with_sentiment. by simplify_map_eq.
Qed.

End Facts.

Lemma lexicon_blob_in_range : @polarity_in_range lexicon_blob.
Proof.
  intros s p sub. simpl.
  destruct (String.eqb s "I absolutely love this!"); [intros [= <- <-]; by compute |].
  destruct (String.eqb s "crash"); [done |].
  intros [= <- <-]. by compute.
Qed.

(** A failure inside TextBlob, and a threshold dictionary without the
    key that is read, both end in the result of the [except] branch. *)
Example analyze_sentiment_library_failure :
  @analyze_sentiment lexicon_blob (init None) (PyStr "crash") = Return error_result.
Proof. by vm_compute. Qed.

Example analyze_sentiment_missing_threshold :
  @analyze_sentiment lexicon_blob (init (Some (<["positive" := (1 # 2)%Q]> ∅)))
    (PyStr "fine") = Return error_result.
Proof. by vm_compute. Qed.

Example analyze_sentiment_positive :
  @analyze_sentiment lexicon_blob (init None) (PyStr "  I absolutely love this! ")
  = Return {| sentiment_score := 1 # 2; sentiment_polarity := 1 # 2;
              sentiment_subjectivity := 3 # 5; sentiment_category := "positive";
              confidence := 1 # 2;
              cleaned_text := Some "I absolutely love this!" |}.
Proof. by vm_compute. Qed.

(** C4 at a sample: the default analyzer on a sentence of the lexicon. *)
Lemma analyze_sentiment_total_in_range_witness :
  @polarity_in_range lexicon_blob
  ∧ ∃ r, @analyze_sentiment lexicon_blob (init None) (PyStr "I absolutely love this!")
         = Return r
         ∧ (-1 <= sentiment_score r ∧ sentiment_score r <= 1)%Q.
Proof.
  split; [exact lexicon_blob_in_range |].
  destruct (@analyze_sentiment_total_in_range lexicon_blob (init None)
              (PyStr "I absolutely love this!") lexicon_blob_in_range)
    as (r & Hr & Hb & _).
  exists r. split; [exact Hr | exact Hb].
Defined.

(** C5 as stated fails on the empty string: the category is neutral and
    the score 0.0, yet the confidence is 0.0 and not 1.0. *)
Lemma empty_text_confidence_not_as_specified :
  ∃ r, @analyze_sentiment lexicon_blob (init None) (PyStr "") = Return r
       ∧ sentiment_category r = "neutral"
       ∧ sentiment_score r = 0%Q
       ∧ ¬ confidence_as_specified r.
Proof.
  exists empty_result. repeat split; try done.
  intros [_ Hn]. specialize (Hn eq_refl). simpl in Hn. by compute in Hn.
Qed.

(** C10 at a sample: one record passed twice, and another one. *)
Lemma analyze_tweets_copies_witness :
  Forall (fun r => r < length [tesla_tweet; scored_tweet]) [0; 1; 0]
  ∧ ∃ out h',
      @analyze_tweets lexicon_blob (init None) [0; 1; 0] [tesla_tweet; scored_tweet]
      = (Return out, h')
      ∧ length out = 3
      ∧ (∀ r d, [tesla_tweet; scored_tweet] !! r = Some d -> h' !! r = Some d).
Proof.
  assert (Hb : Forall (fun r => r < length [tesla_tweet; scored_tweet]) [0; 1; 0])
    by (repeat constructor; simpl; lia).
  split; [exact Hb |].
  destruct (@analyze_tweets_copies lexicon_blob (init None) [0; 1; 0]
              [tesla_tweet; scored_tweet] Hb) as (out & h' & Hrun & Hlen & Hframe & _).
  exists out, h'. split; [exact Hrun |]. split; [exact Hlen | exact Hframe].
Defined.

(** C10 as stated fails on a record that already has a sentiment key:
    the record made for it does not contain the item of the input. *)
Lemma scored_tweet_item_overwritten :
  ∃ out h' d',
    @analyze_tweets lexicon_blob (init None) [0] [scored_tweet] = (Return out, h')
    ∧ length out = 1
    ∧ out !! 0 ≫= (fun r' => h' !! r') = Some d'
    ∧ scored_tweet !! "sentiment_score" = Some (PyInt 5)
    ∧ d' !! "sentiment_score" = Some (PyFloat 0)
    ∧ ¬ (scored_tweet ⊆ d').
Proof.
  exists [1], [scored_tweet; with_sentiment error_result scored_tweet],
    (with_sentiment error_result scored_tweet).
  split; [by vm_compute |]. split; [done |]. split; [done |].
  split; [by vm_compute |]. split; [by vm_compute |].
  intros Hsub. rewrite map_subseteq_spec in Hsub.
  specialize (Hsub "sentiment_score" (PyInt 5)).
  assert (Hin : scored_tweet !! "sentiment_score" = Some (PyInt 5)) by (by vm_compute).
  specialize (Hsub Hin). vm_compute in Hsub. discriminate.
Qed.

End AnalyzerFacts.

(** * Properties of the database loader *)

Module LoaderFacts.
Import DatabaseLoader Samples Spec.

Lemma conn_eq (a b : conn) :
  committed a = committed b -> working a = working b -> a = b.
Proof. destruct a, b; simpl; by intros -> ->. Qed.

(** *** Rows under a uniqueness constraint *)

Lemma add_rows_snoc rows new row :
  add_rows rows (new ++ [row])
  = if decide (row ∈ add_rows rows new) then add_rows rows new
    else add_rows rows new ++ [row].
Proof. unfold add_rows. by rewrite foldl_app. Qed.

Lemma add_rows_app rows new1 new2 :
  add_rows rows (new1 ++ new2) = add_rows (add_rows rows new1) new2.
Proof. unfold add_rows. by rewrite foldl_app. Qed.

Lemma elem_of_add_rows rows new row :
  row ∈ add_rows rows new <-> row ∈ rows ∨ row ∈ new.
Proof.
  revert rows. induction new as [| x new IH]; intros rows; simpl.
  - set_solver.
  - rewrite IH. case_decide; set_solver.
Qed.

Lemma NoDup_add_rows rows new : NoDup rows -> NoDup (add_rows rows new).
Proof.
  revert rows. induction new as [| x new IH]; intros rows Hnd; simpl; [done |].
  apply IH. case_decide; [done |].
  apply NoDup_app. split; [done |]. split; [set_solver | apply NoDup_singleton].
Qed.

Lemma filter_eq_not_elem_of {A} `{EqDecision A} (l : list A) (a : A) :
  a ∉ l -> filter (fun x => x = a) l = [].
Proof.
  induction l as [| x l IH]; [done |]. intros Hn.
  apply not_elem_of_cons in Hn as [Hne Hn].
  rewrite filter_cons. case_decide; [congruence | auto].
Qed.

Lemma NoDup_count_le_1 {A} `{EqDecision A} (l : list A) (a : A) :
  NoDup l -> length (filter (fun x => x = a) l) <= 1.
Proof.
  induction 1 as [| x l Hx Hnd IH]; simpl; [lia |].
  rewrite filter_cons. case_decide as E; simpl; [| done].
  subst x. rewrite filter_eq_not_elem_of by done. simpl. lia.
Qed.

Ltac munfold :=
  unfold mbind, M_bind, mret, M_ret, lift, query, gets, execute, modify in *.

Lemma add_hashtags_nil d : add_hashtags [] d = d.
Proof. by destruct d. Qed.

Lemma add_mentions_nil d : add_mentions [] d = d.
Proof. destruct d. unfold add_mentions; simpl. by rewrite app_nil_r. Qed.

Lemma insert_or_ignore_hashtag_add row rows d :
  add_hashtags rows (insert_or_ignore_hashtag row d) = add_hashtags (row :: rows) d.
Proof.
  destruct d as [tw hs ms bs]. unfold insert_or_ignore_hashtag, add_hashtags; simpl.
  by case_decide.
Qed.

Lemma insert_mention_add row rows d :
  add_mentions rows (insert_mention row d) = add_mentions (row :: rows) d.
Proof.
  destruct d as [tw hs ms bs]. unfold insert_mention, add_mentions; simpl.
  by rewrite <- app_assoc.
Qed.

Lemma on_working_id c : on_working (fun d => d) c = c.
Proof. by destruct c. Qed.

Section Runs.
Context `{SQLite}.

(** The loop over the hashtags of an accepted record adds, under the
    uniqueness constraint, the rows of the normalised tags. *)
Lemma save_hashtags_run (tid : pyval) (v : sqlval) (k : string) (entries : list pyval) :
  adapt tid = Return v -> text_affinity v = Some k ->
  ∀ c, save_hashtags tid entries c
       = (Return tt,
          on_working (add_hashtags ((fun h => (k, h)) <$> normalized_tags entries)) c).
Proof.
  intros Hv Hk. induction entries as [| x entries IH]; intros c.
  - simpl. munfold. destruct c as [cm w]. unfold on_working; simpl.
    by rewrite add_hashtags_nil.
  - cbn [save_hashtags]. munfold.
    destruct x as [| b | z | q | s | l]; simpl;
      try (rewrite ?andb_false_r; rewrite IH; done).
    destruct (decide (s = "")) as [-> | Hs]; simpl; [by rewrite IH |].
    assert (String.eqb s "" = false) as -> by (by apply String.eqb_neq).
    simpl. rewrite Hv, Hk. rewrite IH. unfold on_working; simpl.
    by rewrite insert_or_ignore_hashtag_add.
Qed.

(** The loop over the mentions adds the rows of the normalised mentions,
    in order, repeated ones included. *)
Lemma save_mentions_run (tid : pyval) (v : sqlval) (k : string) (entries : list pyval) :
  adapt tid = Return v -> text_affinity v = Some k ->
  ∀ c, save_mentions tid entries c
       = (Return tt,
          on_working (add_mentions ((fun m => (k, m)) <$> normalized_mentions entries)) c).
Proof.
  intros Hv Hk. induction entries as [| x entries IH]; intros c.
  - simpl. munfold. destruct c as [cm w]. unfold on_working; simpl.
    by rewrite add_mentions_nil.
  - cbn [save_mentions]. munfold.
    destruct x as [| b | z | q | s | l]; simpl;
      try (rewrite ?andb_false_r; rewrite IH; done).
    destruct (decide (s = "")) as [-> | Hs]; simpl; [by rewrite IH |].
    assert (String.eqb s "" = false) as -> by (by apply String.eqb_neq).
    simpl. rewrite Hv, Hk. simpl. rewrite IH. unfold on_working; simpl.
    by rewrite insert_mention_add.
Qed.

End Runs.

Section Steps.
Context `{SQLite}.

Ltac destruct_adapts :=
  repeat match goal with
         | |- context [match adapt ?x with _ => _ end] =>
             destruct (adapt x) eqn:?; try done
         | |- context [match not_null ?x with _ => _ end] =>
             destruct x eqn:?; simpl; try done
         | |- context [py_truthy ?x] =>
             destruct (py_truthy x) eqn:?; simpl; try done
         end.

(** A row is built only for a record whose identity is not NULL, and it
    carries that identity. *)
Lemma tweet_row_of_key (clk : clock) (t : pydict) (r : tweet_row) :
  tweet_row_of clk t = Return r -> key_of t = Some (tweet_id r).
Proof.
  unfold key_of, tweet_row_of, mbind, outcome_bind.
  destruct (adapt (dict_get t "tweet_id")) as [v |] eqn:Hv; [| done].
  destruct_adapts. by intros [= <-].
Qed.

(** Whether a row can be built, and for which identity, does not depend
    on the clock. *)
Lemma tweet_row_of_clock (clk1 clk2 : clock) (t : pydict) :
  match tweet_row_of clk1 t, tweet_row_of clk2 t with
  | Return r1, Return r2 => tweet_id r1 = tweet_id r2
  | Raise e1, Raise e2 => e1 = e2
  | _, _ => False
  end.
Proof.
  unfold tweet_row_of, mbind, outcome_bind, dict_get_d.
  destruct (t !! "collected_at"); simpl; destruct_adapts.
Qed.

Lemma insert_or_replace_fresh (r : tweet_row) (d : db) :
  tweet_id r ∉ tweet_ids d -> insert_or_replace_tweet r d = add_tweet r d.
Proof.
  intros Hn. unfold insert_or_replace_tweet, add_tweet. f_equal. f_equal.
  unfold tweet_ids in Hn. induction (tweets d) as [| x l IH]; [done |].
  rewrite fmap_cons in Hn. apply not_elem_of_cons in Hn as [Hne Hn].
  rewrite filter_cons. case_decide; [by rewrite IH | congruence].
Qed.

End Steps.

Section SaveOne.
Context `{SQLite}.

(** The body of the loop, case by case. *)
Lemma save_one_run (clk : clock) (t : pydict) (c : conn) :
  save_one clk t c =
  match adapt (dict_get t "tweet_id") with
  | Raise e => (Raise e, c)
  | Return v =>
      if match text_affinity v with
         | Some k => bool_decide (k ∈ tweet_ids (working c))
         | None => false
         end
      then (Return false, c)
      else
        match tweet_row_of clk t with
        | Raise e => (Raise e, c)
        | Return r =>
            match py_iter (dict_get_d t "hashtags" (PyList [])) with
            | Raise e => (Raise e, on_working (insert_or_replace_tweet r) c)
            | Return _ =>
                match py_iter (dict_get_d t "mentions" (PyList [])) with
                | Raise e =>
                    (Raise e,
                     on_working (fun d => add_hashtags (tag_rows_of t)
                                            (insert_or_replace_tweet r d)) c)
                | Return _ =>
                    (Return true,
                     on_working (fun d => add_mentions (mention_rows_of t)
                                            (add_hashtags (tag_rows_of t)
                                               (insert_or_replace_tweet r d))) c)
                end
            end
        end
  end.
Proof.
  unfold save_one, select_tweet_id, insert_tweet. munfold.
  destruct (adapt (dict_get t "tweet_id")) as [v | e] eqn:Hv; [| done].
  simpl.
  destruct (match text_affinity v with
            | Some k => bool_decide (k ∈ tweet_ids (working c))
            | None => false
            end) eqn:Hfound; [done |].
  destruct (tweet_row_of clk t) as [r | e] eqn:Hr; [| done].
  pose proof (tweet_row_of_key _ _ _ Hr) as Hkey.
  unfold key_of in Hkey. rewrite Hv in Hkey.
  destruct (py_iter (dict_get_d t "hashtags" (PyList []))) as [tags | e] eqn:Htags;
    [| done].
  rewrite (save_hashtags_run _ v (tweet_id r) tags Hv Hkey).
  assert (Htag : tag_rows_of t = (fun h => (tweet_id r, h)) <$> normalized_tags tags).
  { unfold tag_rows_of, key_of. by rewrite Hv, Hkey, Htags. }
  destruct (py_iter (dict_get_d t "mentions" (PyList []))) as [ms | e] eqn:Hms.
  - rewrite (save_mentions_run _ v (tweet_id r) ms Hv Hkey).
    assert (Hm : mention_rows_of t = (fun m => (tweet_id r, m)) <$> normalized_mentions ms).
    { unfold mention_rows_of, key_of. by rewrite Hv, Hkey, Hms. }
    by rewrite Htag, Hm.
  - by rewrite Htag.
Qed.

(** The loop body never touches what is committed. *)
Lemma save_one_committed (clk : clock) (t : pydict) (c : conn) :
  committed ((save_one clk t c).2) = committed c.
Proof.
  rewrite save_one_run. repeat case_match; done.
Qed.

(** A record whose identity is stored is skipped. *)
Lemma save_one_skips (clk : clock) (t : pydict) (c : conn) (k : string) :
  key_of t = Some k -> k ∈ tweet_ids (working c) ->
  save_one clk t c = (Return false, c).
Proof.
  intros Hk Hin. rewrite save_one_run. unfold key_of in Hk.
  destruct (adapt (dict_get t "tweet_id")) as [v |]; [| done].
  rewrite Hk. by rewrite bool_decide_eq_true_2.
Qed.

(** When the loop body returns, the record was either skipped, its
    identity being stored, or written whole, its identity being new. *)
Lemma save_one_returns (clk : clock) (t : pydict) (c c' : conn) (b : bool) :
  save_one clk t c = (Return b, c') ->
  (b = false ∧ c' = c ∧ ∃ k, key_of t = Some k ∧ k ∈ tweet_ids (working c))
  ∨ (b = true
     ∧ ∃ r, tweet_row_of clk t = Return r
            ∧ key_of t = Some (tweet_id r)
            ∧ (tweet_id r ∉ tweet_ids (working c))
            ∧ c' = on_working (stored r t) c).
Proof.
  rewrite save_one_run. unfold key_of.
  destruct (adapt (dict_get t "tweet_id")) as [v |] eqn:Hv; [| done].
  destruct (text_affinity v) as [k |] eqn:Hk.
  - destruct (bool_decide (k ∈ tweet_ids (working c))) eqn:Hin.
    + intros [= <- <-]. left. apply bool_decide_eq_true in Hin. eauto.
    + apply bool_decide_eq_false in Hin.
      destruct (tweet_row_of clk t) as [r |] eqn:Hr; [| done].
      pose proof (tweet_row_of_key _ _ _ Hr) as Hkey.
      unfold key_of in Hkey. rewrite Hv, Hk in Hkey. injection Hkey as ->.
      repeat case_match; try done. intros [= <- <-]. right. split; [done |].
      exists r. repeat split; try done.
      unfold stored, on_working. by rewrite insert_or_replace_fresh.
  - destruct (tweet_row_of clk t) as [r |] eqn:Hr; [| done].
    pose proof (tweet_row_of_key _ _ _ Hr) as Hkey.
    unfold key_of in Hkey. rewrite Hv, Hk in Hkey. done.
Qed.

(** Whether the loop body returns or raises, and what, depends on the
    stored identities only, not on the clock. *)
Lemma save_one_clock (clk1 clk2 : clock) (t : pydict) (c1 c2 : conn) :
  tweet_ids (working c1) = tweet_ids (working c2) ->
  (save_one clk1 t c1).1 = (save_one clk2 t c2).1
  ∧ (∀ b, (save_one clk1 t c1).1 = Return b ->
          tweet_ids (working ((save_one clk1 t c1).2))
          = tweet_ids (working ((save_one clk2 t c2).2))).
Proof.
  intros Hids. rewrite !save_one_run, Hids.
  destruct (adapt (dict_get t "tweet_id")) as [v |] eqn:Hv; [| done].
  destruct (match text_affinity v with
            | Some k => bool_decide (k ∈ tweet_ids (working c2))
            | None => false
            end) eqn:Hfound; [by simpl; rewrite Hids |].
  pose proof (tweet_row_of_clock clk1 clk2 t) as Hclk.
  destruct (tweet_row_of clk1 t) as [r1 | e1] eqn:Hr1,
           (tweet_row_of clk2 t) as [r2 | e2] eqn:Hr2; try done.
  - assert (tweet_id r1 ∉ tweet_ids (working c2)) as Hfresh.
    { pose proof (tweet_row_of_key _ _ _ Hr1) as Hkey.
      unfold key_of in Hkey. rewrite Hv in Hkey. rewrite Hkey in Hfound.
      by apply bool_decide_eq_false in Hfound. }
    simpl in Hclk.
    assert (tweet_id r2 ∉ tweet_ids (working c2)) as Hfresh2 by (by rewrite <- Hclk).
    assert (tweet_id r1 ∉ tweet_ids (working c1)) as Hfresh1 by (by rewrite Hids).
    unfold on_working. rewrite !insert_or_replace_fresh by done.
    unfold tweet_ids in *.
    repeat case_match; simpl; (split; [done |]); intros b [=].
    all: rewrite ?fmap_app; simpl; congruence.
  - subst e2. simpl. split; [done |]. intros b [=].
Qed.

End SaveOne.

Section SaveLoop.
Context `{SQLite}.

Lemma save_loop_cons (clk : clock) (t : pydict) (rest : list pydict) (n : nat) (c : conn) :
  save_loop clk (t :: rest) n c =
  match save_one clk t c with
  | (Return b, c1) => save_loop clk rest (if b then S n else n) c1
  | (Raise e, c1) => (Raise e, c1)
  end.
Proof. reflexivity. Qed.

Lemma save_loop_committed (clk : clock) (batch : list pydict) :
  ∀ n c, committed ((save_loop clk batch n c).2) = committed c.
Proof.
  induction batch as [| t rest IH]; intros n c; [done |].
  rewrite save_loop_cons.
  pose proof (save_one_committed clk t c) as Hc.
  destruct (save_one clk t c) as [[b | e] c1]; simpl in Hc; [| done].
  by rewrite IH.
Qed.

Lemma save_loop_returns (clk : clock) (batch : list pydict) :
  ∀ n c n' c',
    save_loop clk batch n c = (Return n', c') ->
    ∃ rows,
      batch_stored clk batch rows (working c) (working c')
      ∧ n' = n + length rows
      ∧ Forall (fun t => ∃ k, key_of t = Some k ∧ k ∈ tweet_ids (working c')) batch.
Proof.
  induction batch as [| t rest IH]; intros n c n' c' Hrun.
  - simpl in Hrun. injection Hrun as <- <-. exists [].
    split; [| split; [simpl; lia | constructor]].
    unfold batch_stored; simpl. by rewrite !app_nil_r.
  - rewrite save_loop_cons in Hrun.
    destruct (save_one clk t c) as [[b | e] c1] eqn:Hone; [| done].
    apply IH in Hrun as (rows & (Hrows & Htw & Hhs & Hms & Hbs) & Hn & Hall).
    apply save_one_returns in Hone
      as [(-> & -> & k & Hk & Hin) | (-> & r & Hr & Hk & Hfresh & ->)].
    + exists rows. split; [| split; [done |]].
      * unfold batch_stored. simpl. rewrite Hk. by rewrite decide_True.
      * constructor; [| done]. exists k. split; [done |].
        unfold tweet_ids in *. rewrite Htw, fmap_app. set_solver.
    + assert (Hids : tweet_ids (working (on_working (stored r t) c))
                     = tweet_ids (working c) ++ [tweet_id r]).
      { unfold tweet_ids; simpl. by rewrite fmap_app. }
      rewrite Hids in Hrows, Hhs, Hms. simpl in Htw, Hhs, Hms, Hbs.
      exists (r :: rows). split; [| split; [simpl; lia |]].
      * unfold batch_stored. simpl. rewrite Hk, decide_False by done.
        split; [by constructor |].
        split; [by rewrite Htw, <- app_assoc |].
        split; [by rewrite Hhs, bind_cons, add_rows_app |].
        split; [by rewrite Hms, bind_cons, <- app_assoc | done].
      * constructor; [| done]. exists (tweet_id r). split; [done |].
        unfold tweet_ids. rewrite Htw, !fmap_app. set_solver.
Qed.

(** A batch whose identities are all stored goes through untouched. *)
Lemma save_loop_all_present (clk : clock) (batch : list pydict) (n : nat) (c : conn) :
  Forall (fun t => ∃ k, key_of t = Some k ∧ k ∈ tweet_ids (working c)) batch ->
  save_loop clk batch n c = (Return n, c).
Proof.
  induction 1 as [| t rest (k & Hk & Hin) _ IH]; [done |].
  rewrite save_loop_cons, (save_one_skips clk t c k Hk Hin). exact IH.
Qed.

(** The outcome of the loop does not depend on the clock. *)
Lemma save_loop_clock (clk1 clk2 : clock) (batch : list pydict) :
  ∀ n c1 c2,
    tweet_ids (working c1) = tweet_ids (working c2) ->
    (save_loop clk1 batch n c1).1 = (save_loop clk2 batch n c2).1.
Proof.
  induction batch as [| t rest IH]; intros n c1 c2 Hids; [done |].
  rewrite !save_loop_cons.
  destruct (save_one_clock clk1 clk2 t c1 c2 Hids) as [Ho Hs].
  destruct (save_one clk1 t c1) as [[b1 | e1] c1'],
           (save_one clk2 t c2) as [[b2 | e2] c2']; simpl in *; try done.
  - injection Ho as <-. apply IH. by apply (Hs b1).
  - congruence.
Qed.

End SaveLoop.

(** *** Registry maintenance *)

Lemma add_brands_frame (clk : clock) (names : list string) (d : db) :
  tweets (add_brands clk names d) = tweets d
  ∧ hashtags (add_brands clk names d) = hashtags d
  ∧ mentions (add_brands clk names d) = mentions d.
Proof.
  revert d. induction names as [| x names IH]; intros d; [done |].
  simpl. destruct (IH (insert_or_ignore_brand
                         {| brand_name := x; brand_category := None;
                            brand_created_at := current_timestamp clk |} d))
    as (-> & -> & ->).
  unfold insert_or_ignore_brand. by case_decide.
Qed.

Lemma elem_of_add_brands (clk : clock) (names : list string) (d : db) (x : string) :
  x ∈ brand_names (add_brands clk names d) <-> x ∈ brand_names d ∨ x ∈ names.
Proof.
  revert d. induction names as [| y names IH]; intros d; simpl.
  - set_solver.
  - rewrite IH. unfold insert_or_ignore_brand, brand_names.
    case_decide as Hin; simpl.
    + unfold brand_names in Hin. set_solver.
    + rewrite fmap_app. simpl. set_solver.
Qed.

Lemma add_brands_present (clk : clock) (names : list string) (d : db) :
  Forall (fun x => x ∈ brand_names d) names -> add_brands clk names d = d.
Proof.
  induction 1 as [| x names Hx _ IH]; [done |].
  simpl. unfold insert_or_ignore_brand. simpl. by rewrite decide_True.
Qed.

Lemma elem_of_select_distinct_brands (w : db) (b : string) :
  b ∈ select_distinct_brands w <-> Some b ∈ brand_mentioned <$> tweets w ∧ b ≠ "".
Proof.
  unfold select_distinct_brands.
  rewrite elem_of_remove_dups, list_elem_of_filter, list_elem_of_omap, list_elem_of_fmap.
  split.
  - intros [Hne (r & Hr & Hb)]. split; [| done]. exists r. by rewrite Hb.
  - intros [(r & Hb & Hr) Hne]. split; [done |]. exists r. by rewrite <- Hb.
Qed.

(** After the maintenance the registry has the trimmed name of every
    non-empty brand of the stored records. *)
Lemma maintained_complete (clk : clock) (w : db) :
  registry_has_trimmed_names (maintained clk w).
Proof.
  intros b Hb Hne. unfold maintained in *.
  destruct (add_brands_frame clk
              (strip <$> filter (fun b => b ≠ "") (select_distinct_brands w)) w)
    as (Htw & _ & _).
  rewrite Htw in Hb. apply elem_of_add_brands. right.
  apply list_elem_of_fmap. exists b. split; [done |].
  apply list_elem_of_filter. split; [done |].
  by apply elem_of_select_distinct_brands.
Qed.

(** On a complete registry the maintenance changes nothing. *)
Lemma maintained_idle (clk : clock) (w : db) :
  registry_has_trimmed_names w -> maintained clk w = w.
Proof.
  intros Hw. unfold maintained. apply add_brands_present.
  apply Forall_forall. intros x (b & -> & [Hne Hb]%list_elem_of_filter)%list_elem_of_fmap.
  apply elem_of_select_distinct_brands in Hb as [Hb _]. by apply Hw.
Qed.

Lemma insert_brands_run (clk : clock) (bs : list string) :
  ∀ c, insert_brands clk bs c
       = (Return tt,
          on_working (add_brands clk (strip <$> filter (fun b => b ≠ "") bs)) c).
Proof.
  induction bs as [| b bs IH]; intros c.
  - simpl. munfold. by destruct c.
  - cbn [insert_brands]. munfold. rewrite filter_cons.
    case_decide as Hb.
    + assert (String.eqb b "" = false) as -> by (by apply String.eqb_neq).
      simpl. by rewrite IH.
    + assert (b = "") as -> by (by destruct (decide (b = ""))).
      simpl. by rewrite IH.
Qed.

Lemma update_brand_stats_run (clk : clock) (c : conn) :
  _update_brand_stats clk c
  = (Return tt,
     {| committed := maintained clk (working c); working := maintained clk (working c) |}).
Proof.
  unfold _update_brand_stats, try_except, commit. munfold.
  by rewrite insert_brands_run.
Qed.

Section SaveTweets.
Context `{SQLite}.

Lemma save_body_run (clk : clock) (batch : list pydict) (c : conn) :
  save_body clk batch c =
  match save_loop clk batch 0 c with
  | (Return n, c1) => (Return n, saved clk c1)
  | (Raise e, c1) => (Raise e, c1)
  end.
Proof.
  unfold save_body. munfold.
  destruct (save_loop clk batch 0 c) as [[n | e] c1]; [| done].
  unfold commit. munfold. by rewrite update_brand_stats_run.
Qed.

Lemma save_tweets_run (clk : clock) (batch : list pydict) (c : conn) :
  save_tweets clk batch c =
  match batch with
  | [] => (Return 0, c)
  | _ =>
      match save_loop clk batch 0 c with
      | (Return n, c1) => (Return n, saved clk c1)
      | (Raise e, c1) => (Return 0, rolled_back c)
      end
  end.
Proof.
  destruct batch as [| t rest]; [done |].
  unfold save_tweets, try_except. rewrite save_body_run.
  pose proof (save_loop_committed clk (t :: rest) 0 c) as Hc.
  destruct (save_loop clk (t :: rest) 0 c) as [[n | e] c1]; [done |].
  unfold rollback. munfold. simpl in Hc. unfold rolled_back. by rewrite Hc.
Qed.

Lemma rolled_back_clean (c : conn) : clean c -> rolled_back c = c.
Proof. unfold clean, rolled_back. destruct c; simpl. by intros ->. Qed.

End SaveTweets.

(** *** The invariant of the reachable connections *)

Section Claims.
Context `{SQLite}.

Lemma saved_tweets (clk : clock) (c1 : conn) :
  tweets (working (saved clk c1)) = tweets (working c1)
  ∧ hashtags (working (saved clk c1)) = hashtags (working c1)
  ∧ mentions (working (saved clk c1)) = mentions (working c1).
Proof. unfold saved, maintained; simpl. apply add_brands_frame. Qed.

Lemma saved_clean (clk : clock) (c1 : conn) : clean (saved clk c1).
Proof. done. Qed.


Lemma save_body_returns (clk : clock) (batch : list pydict) (c : conn) (n : nat) :
  (save_body clk batch c).1 = Return n <-> (save_loop clk batch 0 c).1 = Return n.
Proof.
  rewrite save_body_run. by destruct (save_loop clk batch 0 c) as [[n' | e'] c1].
Qed.

(** C1. Saving a batch a second time, whatever the clock shows by then,
    returns 0 and leaves the connection, and so the number of stored
    records, as the first call left it. *)
Theorem save_tweets_idempotent (clk1 clk2 : clock) (batch : list pydict) (c : conn) :
  clean c ->
  (save_tweets clk2 batch ((save_tweets clk1 batch c).2)).1 = Return 0
  ∧ length (tweets (working ((save_tweets clk2 batch ((save_tweets clk1 batch c).2)).2)))
    = length (tweets (working ((save_tweets clk1 batch c).2)))
  ∧ (save_tweets clk2 batch ((save_tweets clk1 batch c).2)).2 = (save_tweets clk1 batch c).2.
Proof.
  intros Hclean.
  assert (Hgoal : save_tweets clk2 batch ((save_tweets clk1 batch c).2)
                  = (Return 0, (save_tweets clk1 batch c).2)).
  { destruct batch as [| t rest]; [done |].
    pose proof (save_tweets_run clk1 (t :: rest) c) as Hfirst.
    destruct (save_loop clk1 (t :: rest) 0 c) as [[n | e] c1] eqn:Hloop;
      rewrite Hfirst; cbn [snd].
    - apply save_loop_returns in Hloop as (rows & _ & _ & Hall).
      rewrite save_tweets_run.
      destruct (saved_tweets clk1 c1) as (Htw & _ & _).
      rewrite (save_loop_all_present clk2 (t :: rest) 0 (saved clk1 c1)).
      + f_equal. unfold saved at 1. simpl.
        rewrite maintained_idle by apply maintained_complete. done.
      + eapply Forall_impl; [exact Hall |]. intros x (k & Hk & Hin).
        exists k. split; [done |]. unfold tweet_ids. by rewrite Htw.
    - rewrite (rolled_back_clean c Hclean). rewrite save_tweets_run.
      pose proof (save_loop_clock clk1 clk2 (t :: rest) 0 c c eq_refl) as Hsame.
      rewrite Hloop in Hsame. cbn [fst] in Hsame.
      destruct (save_loop clk2 (t :: rest) 0 c) as [[n | e'] c1'];
        cbn [fst] in Hsame; [discriminate Hsame |].
      by rewrite (rolled_back_clean c Hclean). }
  by rewrite Hgoal.
Qed.


(** C3. A call returns the number of rows it added to [tweets]; the
    rows that were there stay as they were, in place; and when nothing
    fails the added rows are those of the first writes of the batch, in
    the order of the batch: a record whose identity is stored, or came
    earlier in the batch, is skipped. *)
Theorem save_tweets_first_write_wins (clk : clock) (batch : list pydict) (c : conn) :
  clean c ->
  ∃ rows c',
    save_tweets clk batch c = (Return (length rows), c')
    ∧ clean c'
    ∧ tweets (working c') = tweets (working c) ++ rows
    ∧ match (save_body clk batch c).1 with
      | Return _ =>
          Forall2 (fun t r => tweet_row_of clk t = Return r)
                  (first_writes (tweet_ids (working c)) batch) rows
      | Raise _ => rows = []
      end.
Proof.
  intros Hclean. rewrite save_tweets_run, save_body_run.
  destruct (save_loop clk batch 0 c) as [[n | e] c1] eqn:Hloop.
  - apply save_loop_returns in Hloop as (rows & (Hrows & Htw & _) & -> & _).
    destruct batch as [| t rest].
    + apply Forall2_nil_inv_l in Hrows as ->. exists [], c. simpl.
      by rewrite app_nil_r.
    + exists rows, (saved clk c1). split; [done |]. split; [done |].
      destruct (saved_tweets clk c1) as (-> & _ & _). done.
  - exists [], c. simpl. rewrite app_nil_r.
    destruct batch as [| t rest]; [done |].
    by rewrite (rolled_back_clean c Hclean).
Qed.

End Claims.

Section Claims2.
Context `{SQLite}.

Lemma elem_of_normalized_tags (tags : list pyval) (h : string) :
  h ∈ normalized_tags tags <-> ∃ s, PyStr s ∈ tags ∧ s ≠ "" ∧ h = strip (lower s).
Proof.
  unfold normalized_tags. rewrite list_elem_of_omap. split.
  - intros (v & Hv & Hh). destruct v as [| | | | s |]; try done.
    case_decide; [done |]. injection Hh as <-. eauto.
  - intros (s & Hs & Hne & ->). exists (PyStr s). split; [done |].
    by rewrite decide_False.
Qed.

Lemma elem_of_normalized_mentions (ms : list pyval) (m : string) :
  m ∈ normalized_mentions ms <-> ∃ s, PyStr s ∈ ms ∧ s ≠ "" ∧ m = strip s.
Proof.
  unfold normalized_mentions. rewrite list_elem_of_omap. split.
  - intros (v & Hv & Hm). destruct v as [| | | | s |]; try done.
    case_decide; [done |]. injection Hm as <-. eauto.
  - intros (s & Hs & Hne & ->). exists (PyStr s). split; [done |].
    by rewrite decide_False.
Qed.






End Claims2.

Section Claims3.
Context `{SQLite}.

Lemma connect_sound : sound connect.
Proof.
  split; [done |]. split; [constructor |]. intros b Hb. by apply elem_of_nil in Hb.
Qed.

(** Each call keeps the invariant: on success the tag rows were added
    under the uniqueness constraint and the registry was brought up to
    date; on failure the connection is back where it was. *)
Lemma save_tweets_sound (clk : clock) (batch : list pydict) (c : conn) :
  sound c -> sound ((save_tweets clk batch c).2).
Proof.
  intros (Hclean & Hnd & Hreg). rewrite save_tweets_run.
  destruct batch as [| t rest]; [done |].
  destruct (save_loop clk (t :: rest) 0 c) as [[n | e] c1] eqn:Hloop; cbn [snd].
  - apply save_loop_returns in Hloop as (rows & (_ & _ & Hhs & _) & _).
    split; [done |]. split; [| apply maintained_complete].
    destruct (saved_tweets clk c1) as (_ & -> & _). rewrite Hhs.
    by apply NoDup_add_rows.
  - by rewrite (rolled_back_clean c Hclean).
Qed.

Lemma reachable_sound (c : conn) : reachable c -> sound c.
Proof.
  induction 1 as [| clk batch c _ IH]; [apply connect_sound |].
  by apply save_tweets_sound.
Qed.

(** C7. On every connection the loader can reach, a (tweet_id, hashtag)
    pair occurs at most once in [hashtags], in what the transaction sees
    and in what is committed. *)
Theorem reachable_tags_unique (c : conn) :
  reachable c -> tags_unique (working c) ∧ tags_unique (committed c).
Proof.
  intros (Hclean & Hnd & _)%reachable_sound. unfold clean in Hclean.
  rewrite <- Hclean. split; intros row; by apply NoDup_count_le_1.
Qed.



(** C9. For a date given as a non-empty string, [get_daily_stats]
    returns statistics and leaves the connection alone; [total_tweets] is
    the number of stored records whose [DATE(created_at)] is that date,
    and when there is none both means are 0.0. *)
Theorem get_daily_stats_total (today d : string) (c : conn) :
  d ≠ "" ->
  ∃ stats,
    get_daily_stats today (Some d) c = (Return (Some stats), c)
    ∧ total_tweets stats
      = length (filter (fun r => sql_date (created_at r) = Some d) (tweets (working c)))
    ∧ (total_tweets stats = 0 ->
       avg_retweets stats = 0%Q ∧ avg_favorites stats = 0%Q).
Proof.
  intros Hd. unfold get_daily_stats, try_except. munfold.
  assert (String.eqb d "" = false) as -> by (by apply String.eqb_neq).
  cbn [negb]. eexists. split; [reflexivity |].
  cbn [total_tweets avg_retweets avg_favorites fst snd]. unfold rows_on_date.
  split.
  - f_equal. apply list_filter_iff. intros r. unfold on_date.
    by rewrite bool_decide_eq_true.
  - intros Hnone. apply nil_length_inv in Hnone. by rewrite Hnone.
Qed.

End Claims3.

(** *** The samples *)

(** One record: the repeated tag is stored once, the empty and the
    non-string entries leave no row, the repeated mention stays. *)
Example tesla_tweet_entities :
  hashtags (working ((@save_tweets iso_sqlite noon [tesla_tweet] connect).2))
  = [("a1", "tesla"); ("a1", "ev")]
  ∧ mentions (working ((@save_tweets iso_sqlite noon [tesla_tweet] connect).2))
    = [("a1", "@bob"); ("a1", "@bob")].
Proof. by vm_compute. Qed.

(** An integer identity and its decimal text are one identity under
    TEXT affinity: the second record is skipped. *)
Example integer_and_text_identity :
  (@save_tweets iso_sqlite noon
     [<["tweet_id" := PyInt 5]> tesla_tweet; <["tweet_id" := PyStr "5"]> tesla_tweet]
     connect).1 = Return 1.
Proof. by vm_compute. Qed.

(** A tag of blanks is a non-empty string: it is stored, trimmed to the
    empty string. *)
Example blank_tag_stored_empty :
  hashtags (working ((@save_tweets iso_sqlite noon
     [<["hashtags" := PyList [PyStr "  "; PyStr "A b"]]> tesla_tweet] connect).2))
  = [("a1", ""); ("a1", "a b")].
Proof. by vm_compute. Qed.

(** A hashtag field that cannot be iterated fails the whole batch. *)
Example hashtags_none_fails_batch :
  @save_tweets iso_sqlite noon
    [tesla_tweet; <["tweet_id" := PyStr "b"]> (<["hashtags" := PyNone]> tesla_tweet)]
    connect
  = (Return 0, connect).
Proof. by vm_compute. Qed.

Lemma connect_clean : clean connect.
Proof. reflexivity. Qed.

(** C1 at a sample: the same record saved at noon and in the evening. *)
Lemma save_tweets_idempotent_witness :
  clean connect
  ∧ (@save_tweets iso_sqlite evening [tesla_tweet]
       ((@save_tweets iso_sqlite noon [tesla_tweet] connect).2)).1 = Return 0.
Proof.
  split; [exact connect_clean |].
  exact (proj1 (@save_tweets_idempotent iso_sqlite noon evening [tesla_tweet]
                  connect connect_clean)).
Defined.




(** C3 at a sample: the same record twice in one batch. *)
Lemma save_tweets_first_write_wins_witness :
  clean connect
  ∧ ∃ rows c',
      @save_tweets iso_sqlite noon [tesla_tweet; tesla_tweet] connect
      = (Return (length rows), c')
      ∧ tweets (working c') = tweets (working connect) ++ rows.
Proof.
  split; [exact connect_clean |].
  destruct (@save_tweets_first_write_wins iso_sqlite noon [tesla_tweet; tesla_tweet]
              connect connect_clean) as (rows & c' & Hrun & _ & Htw & _).
  exists rows, c'. split; [exact Hrun | exact Htw].
Defined.

Lemma tesla_batch_returns :
  (@save_body iso_sqlite noon [tesla_tweet] connect).1 = Return 1.
Proof. by vm_compute. Qed.


(** C7 at a sample: the connection after the record with a repeated tag. *)
Lemma reachable_tags_unique_witness :
  @reachable iso_sqlite ((@save_tweets iso_sqlite noon [tesla_tweet] connect).2)
  ∧ tags_unique (working ((@save_tweets iso_sqlite noon [tesla_tweet] connect).2)).
Proof.
  assert (Hr : @reachable iso_sqlite ((@save_tweets iso_sqlite noon [tesla_tweet] connect).2))
    by (apply reachable_save; apply reachable_connect).
  split; [exact Hr |].
  exact (proj1 (@reachable_tags_unique iso_sqlite _ Hr)).
Defined.



(** C9 at a sample: the day of the stored record. *)
Lemma get_daily_stats_total_witness :
  "2024-01-15" ≠ ""
  ∧ ∃ stats,
      @get_daily_stats iso_sqlite "2024-02-01" (Some "2024-01-15")
        ((@save_tweets iso_sqlite noon [tesla_tweet] connect).2)
      = (Return (Some stats), (@save_tweets iso_sqlite noon [tesla_tweet] connect).2)
      ∧ total_tweets stats
        = length (filter (fun r => @sql_date iso_sqlite (created_at r) = Some "2024-01-15")
                    (tweets (working ((@save_tweets iso_sqlite noon [tesla_tweet] connect).2)))).
Proof.
  assert (Hd : "2024-01-15" ≠ "") by discriminate.
  split; [exact Hd |].
  destruct (@get_daily_stats_total iso_sqlite "2024-02-01" "2024-01-15"
              ((@save_tweets iso_sqlite noon [tesla_tweet] connect).2) Hd)
    as (stats & Hrun & Htotal & _).
  exists stats. split; [exact Hrun | exact Htotal].
Defined.

End LoaderFacts.

(** * Further properties: strings *)

Module StringFacts.

Lemma append_cons (a : ascii) (s t : string) :
  (String a s ++ t)%string = String a (s ++ t)%string.
Proof. reflexivity. Qed.

Lemma append_nil_l (t : string) : ("" ++ t)%string = t.
Proof. reflexivity. Qed.

Lemma append_assoc (s t u : string) : ((s ++ t) ++ u)%string = (s ++ (t ++ u))%string.
Proof.
  induction s as [| a s IH]; [done |]. by rewrite !append_cons, IH.
Qed.

Lemma rev_app_append (s t : string) :
  String.rev_app s t = (String.rev s ++ t)%string.
Proof.
  unfold String.rev. revert t. induction s as [| a s IH]; intros t; [done |].
  cbn [String.rev_app].
  rewrite (IH (String a t)), (IH (String a "")). by rewrite append_assoc.
Qed.

Lemma rev_cons (a : ascii) (s : string) :
  String.rev (String a s) = (String.rev s ++ String a "")%string.
Proof. unfold String.rev at 1. simpl. apply rev_app_append. Qed.

Lemma rev_snoc (s : string) (a : ascii) :
  String.rev (s ++ String a "") = String a (String.rev s).
Proof.
  induction s as [| b s IH]; [done |].
  rewrite append_cons, !rev_cons, IH. done.
Qed.

Lemma rev_involutive (s : string) : String.rev (String.rev s) = s.
Proof.
  induction s as [| a s IH]; [done |]. by rewrite rev_cons, rev_snoc, IH.
Qed.

Lemma rev_empty (s : string) : String.rev s = "" <-> s = "".
Proof.
  split; [| by intros ->]. intros Hs.
  rewrite <- (rev_involutive s), Hs. done.
Qed.

(** [lstrip] at the right end of a string. *)
Lemma lstrip_snoc (s : string) (a : ascii) :
  lstrip (s ++ String a "")
  = if decide (lstrip s = "")
    then (if py_isspace a then "" else String a "")
    else (lstrip s ++ String a "")%string.
Proof.
  induction s as [| b s IH].
  - rewrite append_nil_l. simpl. by destruct (py_isspace a).
  - rewrite append_cons. simpl. destruct (py_isspace b); [exact IH |]. done.
Qed.

(** [rstrip] by recursion on the string. *)
Lemma rstrip_cons (a : ascii) (s : string) :
  rstrip (String a s)
  = if decide (rstrip s = "")
    then (if py_isspace a then "" else String a "")
    else String a (rstrip s).
Proof.
  unfold rstrip. rewrite rev_cons, lstrip_snoc.
  destruct (decide (lstrip (String.rev s) = "")) as [He | Hne].
  - rewrite He. simpl. by destruct (py_isspace a).
  - rewrite decide_False by (by rewrite rev_empty).
    apply rev_snoc.
Qed.

Lemma rstrip_nil : rstrip "" = "".
Proof. done. Qed.

Lemma rstrip_idemp (s : string) : rstrip (rstrip s) = rstrip s.
Proof.
  induction s as [| a s IH]; [done |].
  rewrite rstrip_cons. destruct (decide (rstrip s = "")) as [He | Hne].
  - destruct (py_isspace a) eqn:Ha; [done |].
    rewrite rstrip_cons, rstrip_nil. simpl. by rewrite Ha.
  - rewrite rstrip_cons, IH. by rewrite decide_False.
Qed.

Lemma lstrip_idemp (s : string) : lstrip (lstrip s) = lstrip s.
Proof.
  induction s as [| a s IH]; [done |]. simpl.
  destruct (py_isspace a) eqn:Ha; [done |]. simpl. by rewrite Ha.
Qed.

Lemma lstrip_rstrip_lstrip (s : string) :
  lstrip (rstrip (lstrip s)) = rstrip (lstrip s).
Proof.
  induction s as [| a s IH]; [done |]. cbn [lstrip].
  destruct (py_isspace a) eqn:Ha; [done |].
  rewrite rstrip_cons, Ha.
  destruct (decide (rstrip s = "")); cbn [lstrip]; by rewrite Ha.
Qed.

Lemma rstrip_lstrip_rstrip_lstrip (s : string) :
  rstrip (lstrip (rstrip (lstrip s))) = rstrip (lstrip s).
Proof. by rewrite lstrip_rstrip_lstrip, rstrip_idemp. Qed.

(** [strip] is idempotent, and what it returns has no blank at either
    end. *)
Lemma strip_idemp (s : string) : strip (strip s) = strip s.
Proof. unfold strip. apply rstrip_lstrip_rstrip_lstrip. Qed.

Lemma lower_ascii_idemp (a : ascii) : lower_ascii (lower_ascii a) = lower_ascii a.
Proof. destruct a as [[] [] [] [] [] [] [] []]; by vm_compute. Qed.

Lemma isspace_lower_ascii (a : ascii) : py_isspace (lower_ascii a) = py_isspace a.
Proof. destruct a as [[] [] [] [] [] [] [] []]; by vm_compute. Qed.

Lemma lower_idemp (s : string) : lower (lower s) = lower s.
Proof.
  induction s as [| a s IH]; [done |]. simpl. by rewrite lower_ascii_idemp, IH.
Qed.

Lemma lower_empty (s : string) : lower s = "" <-> s = "".
Proof. by destruct s. Qed.

Lemma lstrip_lower (s : string) : lstrip (lower s) = lower (lstrip s).
Proof.
  induction s as [| a s IH]; [done |]. simpl.
  rewrite isspace_lower_ascii. by destruct (py_isspace a).
Qed.

Lemma rstrip_lower (s : string) : rstrip (lower s) = lower (rstrip s).
Proof.
  induction s as [| a s IH]; [done |].
  cbn [lower]. rewrite !rstrip_cons, IH, isspace_lower_ascii.
  destruct (decide (rstrip s = "")) as [He | Hne].
  - rewrite decide_True by (by rewrite lower_empty).
    by destruct (py_isspace a).
  - by rewrite decide_False by (by rewrite lower_empty).
Qed.

Lemma strip_lower (s : string) : strip (lower s) = lower (strip s).
Proof. unfold strip. by rewrite lstrip_lower, rstrip_lower. Qed.

Lemma strip_empty : strip "" = "".
Proof. done. Qed.

End StringFacts.

(** * Further properties: the sentiment analyzer *)

Module AnalyzerExtras.
Import SentimentAnalyzer SentimentUtil Samples Spec StringFacts.

Lemma Qabs_bounds (p : Q) :
  (-1 <= p /\ p <= 1)%Q -> (0 <= Qabs p /\ Qabs p <= 1)%Q.
Proof.
  intros [Hl Hu]. split; [apply Qabs_nonneg |].
  apply Qabs_Qle_condition. split; lra.
Qed.

Lemma Qgtb_spec (a b : Q) : Qgtb a b = true <-> (b < a)%Q.
Proof.
  unfold Qgtb. rewrite negb_true_iff. split.
  - intros Hle. apply Qnot_le_lt. intros Hab. apply Qle_bool_iff in Hab. congruence.
  - intros Hlt. destruct (Qle_bool a b) eqn:E; [| done].
    apply Qle_bool_iff in E. lra.
Qed.

Lemma Qltb_spec (a b : Q) : Qltb a b = true <-> (a < b)%Q.
Proof. unfold Qltb. apply (Qgtb_spec b a). Qed.

Section Extras.
Context `{TextBlob}.

(** X1. The confidence is a number between 0 and 1. *)
Theorem analyze_sentiment_confidence_range (self : t) (text : pyval) :
  polarity_in_range ->
  ∃ r, analyze_sentiment self text = Return r
       ∧ (0 <= confidence r ∧ confidence r <= 1)%Q.
Proof.
  intros Hrange.
  destruct (AnalyzerFacts.analyze_sentiment_cases self text)
    as [[_ ->] | [(_ & _ & ->) | (_ & r & Hr & ->)]].
  - exists empty_result. split; [done |]. simpl. split; lra.
  - exists error_result. split; [done |]. simpl. split; lra.
  - exists r. split; [done |].
    destruct (AnalyzerFacts.analyze_body_returns _ _ _ Hr)
      as (s & p & sub & c & -> & Hb & _ & ->).
    apply Hrange in Hb. apply Qabs_bounds in Hb as [H0 H1]. simpl.
    destruct (negb (c =? "neutral")%string); split; lra.
Qed.

Lemma default_thresholds_positive : default_thresholds !! "positive" = Some (1 # 10)%Q.
Proof. by vm_compute. Qed.

Lemma default_thresholds_negative :
  default_thresholds !! "negative" = Some (- (1 # 10))%Q.
Proof. by vm_compute. Qed.

(** With the default thresholds the category names the region of the
    score. *)
Lemma categorize_default (p : Q) (c : string) :
  categorize (init None) p = Return c ->
  (c = "positive" ∧ (1 # 10 < p)%Q)
  ∨ (c = "negative" ∧ (p < - (1 # 10))%Q)
  ∨ (c = "neutral" ∧ (- (1 # 10) <= p ∧ p <= 1 # 10)%Q).
Proof.
  unfold categorize, getitem, mbind, outcome_bind. cbn [init thresholds].
  rewrite default_thresholds_positive, default_thresholds_negative.
  destruct (Qgtb p (1 # 10)) eqn:Hp.
  { intros [= <-]. left. split; [done |]. by apply Qgtb_spec. }
  destruct (Qltb p (- (1 # 10))) eqn:Hn.
  { intros [= <-]. right; left. split; [done |]. by apply Qltb_spec. }
  intros [= <-]. right; right. split; [done |]. split.
  - apply Qnot_lt_le. intros Hlt. apply Qltb_spec in Hlt. congruence.
  - apply Qnot_lt_le. intros Hlt. apply Qgtb_spec in Hlt. congruence.
Qed.

(** X2. The utility function always answers, and its category agrees with
    the score: positive above 0.1, negative below -0.1, neutral in
    between. *)
Theorem analyze_tweet_sentiment_regions (text : pyval) :
  ∃ r, analyze_tweet_sentiment text = Return r
       ∧ ((sentiment_category r = "positive" ∧ (1 # 10 < sentiment_score r)%Q)
          ∨ (sentiment_category r = "negative" ∧ (sentiment_score r < - (1 # 10))%Q)
          ∨ (sentiment_category r = "neutral"
             ∧ (- (1 # 10) <= sentiment_score r ∧ sentiment_score r <= 1 # 10)%Q)).
Proof.
  unfold analyze_tweet_sentiment.
  destruct (AnalyzerFacts.analyze_sentiment_cases (init None) text)
    as [[_ ->] | [(_ & _ & ->) | (_ & r & Hr & ->)]].
  - exists empty_result. split; [done |]. right; right. simpl. by compute.
  - exists error_result. split; [done |]. right; right. simpl. by compute.
  - exists r. split; [done |].
    destruct (AnalyzerFacts.analyze_body_returns _ _ _ Hr)
      as (s & p & sub & c & -> & _ & Hc & ->).
    simpl. by apply categorize_default.
Qed.




(** *** [analyze_tweets] on records without a text *)

Lemma analyze_tweets_run (self : t) (tweets : list nat) (h : list pydict) :
  Forall (fun r => r < length h) tweets ->
  ∃ ds, Forall2 (analyzed_from self h) tweets ds
        ∧ analyze_tweets self tweets h
          = (Return (seq (length h) (length tweets)), h ++ ds).
Proof.
  intros Hb.
  destruct (AnalyzerFacts.analyze_loop_spec self tweets [] h Hb) as (ds & Hds & Hrun).
  exists ds. split; [done |].
  destruct tweets; [| exact Hrun].
  apply Forall2_nil_inv_l in Hds as ->. simpl. by rewrite app_nil_r.
Qed.

Lemma text_of_missing (d : pydict) :
  d !! "text" = None -> d !! "content" = None -> text_of d = PyStr "".
Proof.
  intros Ht Hc. unfold text_of, py_or, dict_get, dict_get_d. by rewrite Ht, Hc.
Qed.

(** X6. A record with neither a text nor a content, or whose text is not a
    string, gets the neutral category with score 0.0 and confidence 0.0;
    it does not stop the batch. *)
Theorem analyze_tweets_without_text (self : t) (tweets : list nat) (h : list pydict) :
  Forall (fun r => r < length h) tweets ->
  ∃ out h',
    analyze_tweets self tweets h = (Return out, h')
    ∧ ∀ i r d,
        tweets !! i = Some r -> h !! r = Some d ->
        (d !! "text" = None ∧ d !! "content" = None)
        ∨ isinstance_str (text_of d) = false ->
        ∃ r' d',
          out !! i = Some r' ∧ h' !! r' = Some d'
          ∧ d' !! "sentiment_category" = Some (PyStr "neutral")
          ∧ d' !! "sentiment_score" = Some (PyFloat 0)
          ∧ d' !! "sentiment_confidence" = Some (PyFloat 0).
Proof.
  intros Hb. destruct (analyze_tweets_run self tweets h Hb) as (ds & Hds & Hrun).
  exists (seq (length h) (length tweets)), (h ++ ds). split; [done |].
  intros i r d Hi Hd Hguard.
  destruct (Forall2_lookup_l _ _ _ _ _ Hds Hi) as (d' & Hd' & d0 & s & Hd0 & Hs & ->).
  rewrite Hd in Hd0. injection Hd0 as <-.
  assert (s = empty_result) as ->.
  { rewrite AnalyzerFacts.analyze_sentiment_guarded in Hs; [by injection Hs |].
    destruct Hguard as [[Ht Hc] | Hn]; [left; by apply text_of_missing | by right]. }
  exists (length h + i), (with_sentiment empty_result d).
  split; [apply lookup_seq; split; [done |]; by apply lookup_lt_Some in Hi |].
  split; [rewrite lookup_app_r by lia;
          by replace (length h + i - length h) with i by lia |].
  unfold with_sentiment. by simplify_map_eq.
Qed.

(** X5. Without a [positive] threshold the lookup fails inside the [try]:
    every text is reported neutral with score 0.0 and confidence 0.0,
    and no error comes out. *)
Theorem analyze_sentiment_without_positive_threshold (self : t) (text : pyval) :
  thresholds self !! "positive" = None ->
  ∃ r, analyze_sentiment self text = Return r
       ∧ sentiment_category r = "neutral"
       ∧ sentiment_score r = 0%Q ∧ confidence r = 0%Q.
Proof.
  intros Hmiss.
  destruct (AnalyzerFacts.analyze_sentiment_cases self text)
    as [[_ ->] | [(_ & _ & ->) | (_ & r & Hr & _)]].
  - by exists empty_result.
  - by exists error_result.
  - destruct (AnalyzerFacts.analyze_body_returns _ _ _ Hr)
      as (s & p & sub & c & _ & _ & Hc & _).
    unfold categorize, getitem, mbind, outcome_bind in Hc.
    rewrite Hmiss in Hc. discriminate Hc.
Qed.

Lemma text_of_with_sentiment (s : sentiment) (d : pydict) :
  text_of (with_sentiment s d) = text_of d.
Proof.
  unfold text_of, dict_get, dict_get_d.
  rewrite !AnalyzerFacts.with_sentiment_other; [done | |];
    unfold sentiment_keys; set_solver.
Qed.

Lemma with_sentiment_idemp (s : sentiment) (d : pydict) :
  with_sentiment s (with_sentiment s d) = with_sentiment s d.
Proof.
  apply map_eq. intros k.
  destruct (decide (k ∈ sentiment_keys)) as [Hk | Hk];
    [| by rewrite AnalyzerFacts.with_sentiment_other].
  unfold sentiment_keys in Hk. set_unfold in Hk.
  destruct Hk as [-> | [-> | [-> | [-> | [-> | []]]]]];
    unfold with_sentiment; by simplify_map_eq.
Qed.

(** X7. Analysing the analysed records again gives the same records: the
    five sentiment items are computed from the text, which the analysis
    leaves alone. *)
Theorem analyze_tweets_twice (self : t) (tweets : list nat) (h : list pydict) :
  Forall (fun r => r < length h) tweets ->
  ∃ out1 h1 out2 h2,
    analyze_tweets self tweets h = (Return out1, h1)
    ∧ analyze_tweets self out1 h1 = (Return out2, h2)
    ∧ Forall2 (fun r1 r2 => ∃ d, h1 !! r1 = Some d ∧ h2 !! r2 = Some d) out1 out2.
Proof.
  intros Hb. destruct (analyze_tweets_run self tweets h Hb) as (ds & Hds & Hrun1).
  pose proof (Forall2_length _ _ _ Hds) as Hlen.
  assert (Hb1 : Forall (fun r => r < length (h ++ ds)) (seq (length h) (length tweets))).
  { apply Forall_forall. intros r [_ Hr]%elem_of_seq. rewrite length_app. lia. }
  destruct (analyze_tweets_run self _ _ Hb1) as (ds2 & Hds2 & Hrun2).
  pose proof (Forall2_length _ _ _ Hds2) as Hlen2. rewrite length_seq in Hlen2.
  assert (ds2 = ds) as ->.
  { apply (list_eq_same_length _ _ (length tweets)); [lia | lia |].
    intros i d2 d1 Hi Hd2 Hd1.
    destruct (Forall2_lookup_r _ _ _ _ _ Hds Hd1) as (r & Hr & d & s & Hd & Hs & ->).
    destruct (Forall2_lookup_r _ _ _ _ _ Hds2 Hd2) as (r1 & Hr1 & d0 & s0 & Hd0 & Hs0 & ->).
    apply lookup_seq in Hr1 as [-> _].
    rewrite lookup_app_r in Hd0 by lia.
    replace (length h + i - length h) with i in Hd0 by lia.
    rewrite Hd1 in Hd0. injection Hd0 as <-.
    rewrite text_of_with_sentiment, Hs in Hs0. injection Hs0 as <-.
    apply with_sentiment_idemp. }
  eexists _, _, _, _. split; [exact Hrun1 |]. split; [exact Hrun2 |].
  rewrite length_seq, length_app, <- Hlen.
  apply Forall2_same_length_lookup. split; [by rewrite !length_seq |].
  intros i r1 r2 [-> Hi]%lookup_seq [-> _]%lookup_seq.
  destruct (lookup_lt_is_Some_2 ds i) as [d Hd]; [lia |].
  exists d. split.
  - rewrite lookup_app_r by lia. rewrite <- Hd. f_equal. lia.
  - rewrite lookup_app_r by (rewrite length_app; lia).
    rewrite <- Hd. f_equal. rewrite length_app. lia.
Qed.

End Extras.

(** The regions at a sample; and a blank text, which is analysed as the
    empty text would be by TextBlob and not turned away by the guard. *)
Lemma analyze_sentiment_confidence_range_witness :
  @polarity_in_range lexicon_blob
  ∧ ∃ r, @analyze_sentiment lexicon_blob (init None) (PyStr "I absolutely love this!")
         = Return r
         ∧ (0 <= confidence r ∧ confidence r <= 1)%Q.
Proof.
  split; [exact AnalyzerFacts.lexicon_blob_in_range |].
  exact (@analyze_sentiment_confidence_range lexicon_blob (init None)
           (PyStr "I absolutely love this!") AnalyzerFacts.lexicon_blob_in_range).
Defined.


Lemma analyze_tweets_without_text_witness :
  Forall (fun r => r < length [broken_tweet; tesla_tweet]) [0; 1]
  ∧ ∃ out h',
      @analyze_tweets lexicon_blob (init None) [0; 1] [broken_tweet; tesla_tweet]
      = (Return out, h').
Proof.
  assert (Hb : Forall (fun r => r < length [broken_tweet; tesla_tweet]) [0; 1])
    by (repeat constructor; simpl; lia).
  split; [exact Hb |].
  destruct (@analyze_tweets_without_text lexicon_blob (init None) [0; 1]
              [broken_tweet; tesla_tweet] Hb) as (out & h' & Hrun & _).
  by exists out, h'.
Defined.

Example blank_text_is_analysed :
  @analyze_sentiment lexicon_blob (init None) (PyStr "   ")
  = Return {| sentiment_score := 0; sentiment_polarity := 0;
              sentiment_subjectivity := 0; sentiment_category := "neutral";
              confidence := 1; cleaned_text := Some "" |}.
Proof. by vm_compute. Qed.

Lemma analyze_sentiment_without_positive_threshold_witness :
  thresholds (init (Some {["negative" := (- (1 # 10))%Q]})) !! "positive" = None
  ∧ ∃ r, @analyze_sentiment lexicon_blob (init (Some {["negative" := (- (1 # 10))%Q]}))
           (PyStr "I absolutely love this!") = Return r
         ∧ sentiment_category r = "neutral"
         ∧ sentiment_score r = 0%Q ∧ confidence r = 0%Q.
Proof.
  assert (Hmiss : thresholds (init (Some {["negative" := (- (1 # 10))%Q]})) !! "positive"
                  = None) by (by vm_compute).
  split; [exact Hmiss |].
  exact (@analyze_sentiment_without_positive_threshold lexicon_blob _
           (PyStr "I absolutely love this!") Hmiss).
Defined.

Lemma analyze_tweets_twice_witness :
  Forall (fun r => r < length [scored_tweet; tesla_tweet]) [0; 1]
  ∧ ∃ out1 h1 out2 h2,
      @analyze_tweets lexicon_blob (init None) [0; 1] [scored_tweet; tesla_tweet]
      = (Return out1, h1)
      ∧ @analyze_tweets lexicon_blob (init None) out1 h1 = (Return out2, h2)
      ∧ Forall2 (fun r1 r2 => ∃ d, h1 !! r1 = Some d ∧ h2 !! r2 = Some d) out1 out2.
Proof.
  assert (Hb : Forall (fun r => r < length [scored_tweet; tesla_tweet]) [0; 1])
    by (repeat constructor; simpl; lia).
  split; [exact Hb |].
  exact (@analyze_tweets_twice lexicon_blob (init None) [0; 1]
           [scored_tweet; tesla_tweet] Hb).
Defined.

End AnalyzerExtras.

(** * Further properties: the database loader *)

Module LoaderExtras.
Import DatabaseLoader Samples Spec Invariants Rankings StringFacts LoaderFacts.

Lemma add_rows_prefix (rows new : list (string * string)) :
  rows `prefix_of` add_rows rows new.
Proof.
  revert rows. induction new as [| x new IH]; intros rows; simpl; [done |].
  case_decide; [apply IH |].
  etrans; [| apply IH]. by apply prefix_app_r.
Qed.

Lemma add_brands_prefix (clk : clock) (names : list string) (d : db) :
  brands d `prefix_of` brands (add_brands clk names d).
Proof.
  revert d. induction names as [| x names IH]; intros d; simpl; [done |].
  etrans; [| apply IH]. unfold insert_or_ignore_brand.
  case_decide; [done |]. simpl. by apply prefix_app_r.
Qed.

Lemma add_brands_NoDup (clk : clock) (names : list string) (d : db) :
  NoDup (brand_names d) -> NoDup (brand_names (add_brands clk names d)).
Proof.
  revert d. induction names as [| x names IH]; intros d Hnd; simpl; [done |].
  apply IH. unfold insert_or_ignore_brand. case_decide as Hin; [done |].
  unfold brand_names in *. simpl. rewrite fmap_app. simpl.
  apply NoDup_app. split; [done |]. split; [set_solver | apply NoDup_singleton].
Qed.

Section Invariant.
Context `{SQLite}.

Lemma first_writes_keys_NoDup (batch : list pydict) :
  ∀ seen ks,
    NoDup seen ->
    Forall2 (fun t k => key_of t = Some k) (first_writes seen batch) ks ->
    NoDup (seen ++ ks).
Proof.
  induction batch as [| t rest IH]; intros seen ks Hnd Hks; simpl in Hks.
  - apply Forall2_nil_inv_l in Hks as ->. by rewrite app_nil_r.
  - destruct (key_of t) as [k |] eqn:Hk.
    + case_decide as Hin; [by apply IH |].
      apply Forall2_cons_inv_l in Hks as (k' & ks' & Hk' & Hks' & ->).
      rewrite Hk in Hk'. injection Hk' as <-.
      replace (seen ++ k :: ks') with ((seen ++ [k]) ++ ks')
        by (by rewrite <- app_assoc).
      apply IH; [| done]. apply NoDup_app. split; [done |].
      split; [set_solver | apply NoDup_singleton].
    + apply Forall2_cons_inv_l in Hks as (k' & ks' & Hk' & _). congruence.
Qed.

Lemma rows_keys (clk : clock) (fw : list pydict) (rows : list tweet_row) :
  Forall2 (fun t r => tweet_row_of clk t = Return r) fw rows ->
  Forall2 (fun t k => key_of t = Some k) fw (tweet_id <$> rows).
Proof.
  intros Hrows. apply Forall2_fmap_r.
  eapply Forall2_impl; [exact Hrows |]. intros t r Hr. simpl.
  exact (tweet_row_of_key clk t r Hr).
Qed.

Lemma tag_row_key (t : pydict) (row : string * string) :
  row ∈ tag_rows_of t ->
  key_of t = Some row.1 ∧ ∃ s, row.2 = strip (lower s).
Proof.
  unfold tag_rows_of. destruct (key_of t) as [k |]; [| by intros ?%elem_of_nil].
  destruct (py_iter _) as [entries |]; [| by intros ?%elem_of_nil].
  intros (h & -> & Hh)%list_elem_of_fmap. split; [done |].
  apply elem_of_normalized_tags in Hh as (s & _ & _ & ->). by exists s.
Qed.

Lemma mention_row_key (t : pydict) (row : string * string) :
  row ∈ mention_rows_of t ->
  key_of t = Some row.1 ∧ ∃ s, row.2 = strip s.
Proof.
  unfold mention_rows_of. destruct (key_of t) as [k |]; [| by intros ?%elem_of_nil].
  destruct (py_iter _) as [entries |]; [| by intros ?%elem_of_nil].
  intros (m & -> & Hm)%list_elem_of_fmap. split; [done |].
  apply elem_of_normalized_mentions in Hm as (s & _ & _ & ->). by exists s.
Qed.

(** The identity of a written record is among the stored ones. *)
Lemma written_key_stored (clk : clock) (fw : list pydict) (rows : list tweet_row)
    (old : list tweet_row) (t : pydict) (k : string) :
  Forall2 (fun t r => tweet_row_of clk t = Return r) fw rows ->
  t ∈ fw -> key_of t = Some k ->
  k ∈ tweet_id <$> (old ++ rows).
Proof.
  intros Hrows Ht Hk. apply list_elem_of_lookup in Ht as [i Hi].
  destruct (Forall2_lookup_l _ _ _ _ _ Hrows Hi) as (r & Hr & Hrow).
  apply tweet_row_of_key in Hrow. rewrite Hk in Hrow. injection Hrow as ->.
  rewrite fmap_app. apply elem_of_app. right.
  apply list_elem_of_fmap. exists r. split; [done |].
  by eapply list_elem_of_lookup_2.
Qed.

(** The loop, when it goes through, keeps the invariants of the three
    relations it writes. *)
Lemma batch_stored_consistent (clk : clock) (batch : list pydict)
    (rows : list tweet_row) (d d' : db) :
  batch_stored clk batch rows d d' ->
  ids_unique d -> entities_owned d -> entities_normalized d ->
  ids_unique d'
  ∧ entities_owned d'
  ∧ (∀ row, row ∈ hashtags d' -> strip row.2 = row.2 ∧ lower row.2 = row.2)
  ∧ (∀ row, row ∈ mentions d' -> strip row.2 = row.2).
Proof.
  intros (Hrows & Htw & Hhs & Hms & Hbs) Hids [Hoh Hom] (Hnh & Hnm & _).
  unfold ids_unique, entities_owned, tweet_ids in *. rewrite Htw, Hhs, Hms.
  split; [| split; [split |]; [| | split]].
  - rewrite fmap_app. eapply first_writes_keys_NoDup; [exact Hids |].
    by apply (rows_keys clk).
  - intros row [Hold | Hnew]%elem_of_add_rows.
    + rewrite fmap_app. apply elem_of_app. left. by apply Hoh.
    + apply list_elem_of_bind in Hnew as (t & Hrow & Ht).
      apply tag_row_key in Hrow as [Hk _]. by eapply written_key_stored.
  - intros row [Hold | Hnew]%elem_of_app.
    + rewrite fmap_app. apply elem_of_app. left. by apply Hom.
    + apply list_elem_of_bind in Hnew as (t & Hrow & Ht).
      apply mention_row_key in Hrow as [Hk _]. by eapply written_key_stored.
  - intros row [Hold | Hnew]%elem_of_add_rows; [by apply Hnh |].
    apply list_elem_of_bind in Hnew as (t & Hrow & _).
    apply tag_row_key in Hrow as [_ [s ->]].
    split; [apply strip_idemp |]. by rewrite <- strip_lower, lower_idemp.
  - intros row [Hold | Hnew]%elem_of_app; [by apply Hnm |].
    apply list_elem_of_bind in Hnew as (t & Hrow & _).
    apply mention_row_key in Hrow as [_ [s ->]]. apply strip_idemp.
Qed.

(** The maintenance keeps the registry sound, its names unique and
    trimmed. *)
Lemma maintained_registry (clk : clock) (w0 w : db) :
  tweets w0 `prefix_of` tweets w -> brands w = brands w0 ->
  registry_names_unique w0 -> registry_sound w0 ->
  (∀ n, n ∈ brand_names w0 -> strip n = n) ->
  registry_names_unique (maintained clk w)
  ∧ registry_sound (maintained clk w)
  ∧ (∀ n, n ∈ brand_names (maintained clk w) -> strip n = n).
Proof.
  intros [more Htw] Hbs Hu Hs Hn.
  assert (Hnames : brand_names w = brand_names w0) by (unfold brand_names; by rewrite Hbs).
  unfold registry_names_unique, registry_sound, maintained in *.
  destruct (add_brands_frame clk
              (strip <$> filter (fun b => b ≠ "") (select_distinct_brands w)) w)
    as (Htw' & _ & _).
  split; [apply add_brands_NoDup; by rewrite Hnames |]. split.
  - intros n [Hold | Hnew]%elem_of_add_brands.
    + rewrite Hnames in Hold. destruct (Hs n Hold) as (b & Hb & Hne & ->).
      exists b. split; [| done]. rewrite Htw', Htw, fmap_app. apply elem_of_app. by left.
    + apply list_elem_of_fmap in Hnew as (b & -> & [Hne Hb]%list_elem_of_filter).
      apply elem_of_select_distinct_brands in Hb as [Hb _].
      exists b. by rewrite Htw'.
  - intros n [Hold | Hnew]%elem_of_add_brands.
    + rewrite Hnames in Hold. by apply Hn.
    + apply list_elem_of_fmap in Hnew as (b & -> & _). apply strip_idemp.
Qed.

Lemma connect_consistent : consistent connect.
Proof.
  split; [done |]. split; [constructor |].
  split; [split; intros row ?%elem_of_nil; done |].
  split; [constructor |]. split; [intros n ?%elem_of_nil; done |].
  split; [| split]; by intros ? ?%elem_of_nil.
Qed.

Lemma save_tweets_consistent (clk : clock) (batch : list pydict) (c : conn) :
  consistent c -> consistent ((save_tweets clk batch c).2).
Proof.
  intros (Hclean & Hids & Hown & Hu & Hs & Hnorm). rewrite save_tweets_run.
  destruct batch as [| t rest]; [done |].
  destruct (save_loop clk (t :: rest) 0 c) as [[n | e] c1] eqn:Hloop; cbn [snd].
  - apply save_loop_returns in Hloop as (rows & Hst & _).
    destruct (batch_stored_consistent _ _ _ _ _ Hst Hids Hown Hnorm)
      as (Hids1 & [Hoh Hom] & Hnh & Hnm).
    destruct Hst as (_ & Htw & _ & _ & Hbs).
    destruct (maintained_registry clk (working c) (working c1))
      as (Hu1 & Hs1 & Hn1); [by exists rows | done | done | done | apply Hnorm |].
    destruct (saved_tweets clk c1) as (Htw1 & Hhs1 & Hms1).
    split; [done |]. unfold ids_unique, entities_owned, entities_normalized, tweet_ids.
    rewrite Htw1, Hhs1, Hms1. done.
  - by rewrite (rolled_back_clean c Hclean).
Qed.

Lemma reachable_consistent (c : conn) : reachable c -> consistent c.
Proof.
  induction 1 as [| clk batch c _ IH]; [apply connect_consistent |].
  by apply save_tweets_consistent.
Qed.

(** X8. No two stored records share an identity, on every connection the
    loader can reach. *)
Theorem reachable_ids_unique (c : conn) :
  reachable c -> ids_unique (working c) ∧ ids_unique (committed c).
Proof.
  intros (Hclean & Hids & _)%reachable_consistent.
  unfold clean in Hclean. by rewrite <- Hclean.
Qed.

(** X9. Every tag row and every mention row names a stored record, although
    the foreign keys are not enforced. *)
Theorem reachable_entities_owned (c : conn) :
  reachable c -> entities_owned (working c).
Proof. by intros (_ & _ & Hown & _)%reachable_consistent. Qed.

(** X10. The registry never has two rows of one name. *)
Theorem reachable_registry_names_unique (c : conn) :
  reachable c -> registry_names_unique (working c).
Proof. by intros (_ & _ & _ & Hu & _)%reachable_consistent. Qed.



End Invariant.

Section Saves.
Context `{SQLite}.

Ltac destruct_binds :=
  repeat match goal with
         | |- context [match adapt ?x with _ => _ end] =>
             destruct (adapt x) eqn:?; try by eexists
         | |- context [match not_null ?x with _ => _ end] =>
             destruct x eqn:?; simpl; try by eexists
         | |- context [py_truthy ?x] =>
             destruct (py_truthy x) eqn:?; simpl; try by eexists
         end.

(** X13. Rows are only ever added, at the end of a table: a call neither
    deletes nor changes a row of any of the four tables. *)
Theorem save_tweets_append_only (clk : clock) (batch : list pydict) (c : conn) :
  clean c ->
  tweets (working c) `prefix_of` tweets (working ((save_tweets clk batch c).2))
  ∧ hashtags (working c) `prefix_of` hashtags (working ((save_tweets clk batch c).2))
  ∧ mentions (working c) `prefix_of` mentions (working ((save_tweets clk batch c).2))
  ∧ brands (working c) `prefix_of` brands (working ((save_tweets clk batch c).2)).
Proof.
  intros Hclean. rewrite save_tweets_run.
  destruct batch as [| t rest]; [done |].
  destruct (save_loop clk (t :: rest) 0 c) as [[n | e] c1] eqn:Hloop; cbn [snd].
  - apply save_loop_returns in Hloop as (rows & (_ & Htw & Hhs & Hms & Hbs) & _).
    destruct (saved_tweets clk c1) as (-> & -> & ->).
    rewrite Htw, Hhs, Hms. split; [by apply prefix_app_r |].
    split; [apply add_rows_prefix |]. split; [by apply prefix_app_r |].
    unfold saved, maintained. cbn [working]. rewrite <- Hbs. apply add_brands_prefix.
  - by rewrite (rolled_back_clean c Hclean).
Qed.

(** X14. After a call in which nothing failed, the lookup the loader starts
    with finds every record of the batch. *)
Theorem saved_records_are_found (clk : clock) (batch : list pydict) (c : conn) (n : nat) :
  clean c ->
  (save_body clk batch c).1 = Return n ->
  Forall (fun t =>
            (select_tweet_id (dict_get t "tweet_id") ((save_tweets clk batch c).2)).1
            = Return true) batch.
Proof.
  intros Hclean Hbody. apply save_body_returns in Hbody.
  rewrite save_tweets_run.
  destruct batch as [| t rest]; [constructor |].
  destruct (save_loop clk (t :: rest) 0 c) as [[n0 | e] c1] eqn:Hloop; [| done].
  apply save_loop_returns in Hloop as (rows & _ & _ & Hall). cbn [snd].
  eapply Forall_impl; [exact Hall |]. intros x (k & Hk & Hin).
  unfold select_tweet_id, key_of in *. munfold.
  destruct (adapt (dict_get x "tweet_id")) as [v |]; [| done].
  cbn [fst]. rewrite Hk. destruct (saved_tweets clk c1) as (Htw & _ & _).
  unfold tweet_ids in *. rewrite Htw. by rewrite bool_decide_eq_true_2.
Qed.

(** X15. A batch of records whose identities are all stored never fails,
    whatever else the records hold: the call returns 0 and changes
    nothing. *)
Theorem save_tweets_all_stored (clk : clock) (batch : list pydict) (c : conn) :
  reachable c ->
  Forall (fun t => ∃ k, key_of t = Some k ∧ k ∈ tweet_ids (working c)) batch ->
  save_tweets clk batch c = (Return 0, c).
Proof.
  intros (Hclean & _ & Hreg)%reachable_sound Hall. rewrite save_tweets_run.
  destruct batch as [| t rest]; [done |].
  rewrite (save_loop_all_present clk (t :: rest) 0 c Hall).
  f_equal. unfold saved. rewrite maintained_idle by done.
  unfold clean in Hclean. destruct c as [cm w]; simpl in *. by rewrite Hclean.
Qed.

Lemma tweet_row_of_required (clk : clock) (t : pydict) :
  required_missing t -> ∃ e, tweet_row_of clk t = Raise e.
Proof.
  unfold tweet_row_of, mbind, outcome_bind.
  intros [Hm | [Hm | [Hm | Hm]]]; rewrite Hm; simpl; destruct_binds.
Qed.

Lemma key_of_missing (t : pydict) (r : tweet_row) (clk : clock) :
  key_of t = None -> tweet_row_of clk t ≠ Return r.
Proof. intros Hk Hr. apply tweet_row_of_key in Hr. congruence. Qed.

(** The loop raises when one of its first writes cannot be turned into
    a row. *)
Lemma save_loop_unwritable (clk : clock) (batch : list pydict) (n : nat)
    (c : conn) (t : pydict) :
  t ∈ first_writes (tweet_ids (working c)) batch ->
  (∀ r, tweet_row_of clk t ≠ Return r) ->
  ∃ e, (save_loop clk batch n c).1 = Raise e.
Proof.
  intros Ht Hno.
  destruct (save_loop clk batch n c) as [[n' | e] c'] eqn:Hloop; [| by exists e].
  apply save_loop_returns in Hloop as (rows & (Hrows & _) & _).
  apply list_elem_of_lookup in Ht as [i Hi].
  destruct (Forall2_lookup_l _ _ _ _ _ Hrows Hi) as (r & _ & Hr).
  by destruct (Hno r).
Qed.

Lemma save_tweets_loop_raises (clk : clock) (batch : list pydict) (c : conn) (e : exn) :
  clean c -> (save_loop clk batch 0 c).1 = Raise e ->
  save_tweets clk batch c = (Return 0, c).
Proof.
  intros Hclean Hraise. rewrite save_tweets_run.
  destruct batch as [| t rest]; [done |].
  destruct (save_loop clk (t :: rest) 0 c) as [[n | e'] c1]; [done |].
  by rewrite (rolled_back_clean c Hclean).
Qed.

(** X16. A record that is not skipped and has no [tweet_id], [created_at],
    [user_id] or [user_name] fails the whole batch: the call returns 0
    and nothing is kept, not even the records before it. *)
Theorem save_tweets_required_field (clk : clock) (batch : list pydict)
    (c : conn) (t : pydict) :
  clean c ->
  t ∈ first_writes (tweet_ids (working c)) batch ->
  required_missing t ->
  save_tweets clk batch c = (Return 0, c).
Proof.
  intros Hclean Ht Hmiss.
  destruct (save_loop_unwritable clk batch 0 c t Ht) as [e He].
  { intros r Hr. destruct (tweet_row_of_required clk t Hmiss) as [e' He']. congruence. }
  by eapply save_tweets_loop_raises.
Qed.

Lemma first_writes_no_key (t : pydict) (batch : list pydict) :
  key_of t = None -> t ∈ batch -> ∀ seen, t ∈ first_writes seen batch.
Proof.
  intros Hk. induction batch as [| x rest IH]; intros Hin seen.
  - by apply elem_of_nil in Hin.
  - apply elem_of_cons in Hin as [<- | Hin].
    + simpl. rewrite Hk. apply list_elem_of_here.
    + simpl. destruct (key_of x) as [k |]; [case_decide |];
        try apply list_elem_of_further; by apply IH.
Qed.

(** X17. A record without a [tweet_id], anywhere in the batch, fails the
    whole batch. *)
Theorem save_tweets_missing_id (clk : clock) (batch : list pydict)
    (c : conn) (t : pydict) :
  clean c ->
  t ∈ batch ->
  dict_get t "tweet_id" = PyNone ->
  save_tweets clk batch c = (Return 0, c).
Proof.
  intros Hclean Ht Hid.
  assert (Hk : key_of t = None) by (unfold key_of; by rewrite Hid).
  destruct (save_loop_unwritable clk batch 0 c t) as [e He].
  { by apply first_writes_no_key. }
  { intros r. by apply key_of_missing. }
  by eapply save_tweets_loop_raises.
Qed.

(** X18. What a call returns does not depend on the time at which it runs. *)
Theorem save_tweets_clock_independent (clk1 clk2 : clock) (batch : list pydict) (c : conn) :
  (save_tweets clk1 batch c).1 = (save_tweets clk2 batch c).1.
Proof.
  rewrite !save_tweets_run. destruct batch as [| t rest]; [done |].
  pose proof (save_loop_clock clk1 clk2 (t :: rest) 0 c c eq_refl) as Hsame.
  destruct (save_loop clk1 (t :: rest) 0 c) as [[n1 | e1] c1],
           (save_loop clk2 (t :: rest) 0 c) as [[n2 | e2] c2];
    cbn [fst] in *; congruence.
Qed.

End Saves.

Section Composition.
Context `{SQLite}.






End Composition.

Section Statistics.
Context `{SQLite}.

Lemma count_desc_total : Total count_desc.
Proof. intros a b. unfold count_desc. lia. Qed.

Lemma count_desc_trans : Transitive count_desc.
Proof. intros a b c. unfold count_desc. lia. Qed.

Lemma length_omap_le {A B} (f : A -> option B) (l : list A) :
  length (omap f l) <= length l.
Proof.
  induction l as [| x l IH]; [done |].
  cbn. destruct (f x); cbn; fold (omap f l); lia.
Qed.

Lemma top_counts_ranking (n : nat) (keys : list string) :
  ranking n keys (top_counts n keys).
Proof.
  unfold top_counts.
  set (g := (fun k => (k, length (filter (fun x => x = k) keys))) <$> remove_dups keys).
  pose proof (merge_sort_Permutation count_desc g) as Hperm.
  pose proof count_desc_total as Htotal. pose proof count_desc_trans as Htrans.
  pose proof (StronglySorted_merge_sort count_desc g) as Hsorted.
  assert (Hg : ∀ k m, (k, m) ∈ g <-> k ∈ keys ∧ m = occurrences k keys).
  { intros k m. unfold g. rewrite list_elem_of_fmap. split.
    - intros (k' & [= -> ->] & Hk). rewrite elem_of_remove_dups in Hk. by split.
    - intros [Hk ->]. exists k. by rewrite elem_of_remove_dups. }
  assert (Hfst : g.*1 = remove_dups keys).
  { unfold g. rewrite <- list_fmap_compose. apply list_fmap_id. }
  rewrite <- (take_drop n (merge_sort count_desc g)) in Hsorted.
  split; [| split; [| split; [| split]]].
  - by rewrite length_take, Hperm, <- Hfst, length_fmap.
  - rewrite fmap_take.
    apply (sublist_NoDup _ ((merge_sort count_desc g).*1)); [| apply sublist_take].
    rewrite Hperm, Hfst. apply NoDup_remove_dups.
  - apply StronglySorted_Sorted. by apply StronglySorted_app_1_l in Hsorted.
  - intros k m Hin. apply Hg. rewrite <- Hperm.
    apply elem_of_take in Hin as (i & Hi & _). by eapply list_elem_of_lookup_2.
  - intros k Hk Hout k' m' Hin.
    assert (Hkg : (k, occurrences k keys) ∈ merge_sort count_desc g)
      by (rewrite Hperm; by apply Hg).
    rewrite <- (take_drop n (merge_sort count_desc g)) in Hkg.
    apply elem_of_app in Hkg as [Htake | Hdrop].
    + destruct Hout. apply list_elem_of_fmap. by exists (k, occurrences k keys).
    + exact (StronglySorted_app_1_elem_of _ _ _ _ _ Hsorted Hin Hdrop).
Qed.

Lemma hashtags_on_date_none (date : string) (d : db) :
  rows_on_date date d = [] -> hashtags_on_date date d = [].
Proof.
  unfold rows_on_date, hashtags_on_date. intros Hnone.
  assert (Hoff : ∀ t, t ∈ tweets d -> on_date date t = false).
  { intros t Ht. destruct (on_date date t) eqn:Hon; [| done].
    assert (t ∈ filter (fun r => on_date date r = true) (tweets d)) as Hin
      by (by apply list_elem_of_filter).
    rewrite Hnone in Hin. by apply elem_of_nil in Hin. }
  apply elem_of_nil_inv. intros x (h & Hx & _)%list_elem_of_bind.
  apply list_elem_of_bind in Hx as (t & Hx & Ht).
  rewrite (Hoff t Ht), andb_false_r in Hx. by apply elem_of_nil in Hx.
Qed.

(** A call by its parts; the day is the argument, or today when the
    argument is missing or empty. *)
Lemma get_daily_stats_run (today : string) (date : option string) (c : conn) :
  ∃ d stats,
    d = match date with
        | Some s => if negb (String.eqb s "") then s else today
        | None => today
        end
    ∧ get_daily_stats today date c = (Return (Some stats), c)
    ∧ total_tweets stats = length (rows_on_date d (working c))
    ∧ unique_users stats = length (remove_dups (user_id <$> rows_on_date d (working c)))
    ∧ top_brands stats
      = top_counts 5 (filter (fun b => b ≠ "")
                        (omap brand_mentioned (rows_on_date d (working c))))
    ∧ top_hashtags stats = top_counts 10 (hashtags_on_date d (working c)).
Proof.
  unfold get_daily_stats, try_except. munfold.
  eexists _, _. split; [reflexivity |]. split; [reflexivity |].
  cbn [total_tweets unique_users top_brands top_hashtags fst snd]. done.
Qed.

(** X22. The statistics of a day never fail on a date, whatever it is, and
    leave the connection alone; there are no more users than records,
    at most five brands and ten tags, no brand is counted more often than
    there are records, and a day without records has no brand and no
    tag. *)
Theorem get_daily_stats_bounds (today : string) (date : option string) (c : conn) :
  ∃ stats,
    get_daily_stats today date c = (Return (Some stats), c)
    ∧ unique_users stats <= total_tweets stats
    ∧ length (top_brands stats) <= 5
    ∧ length (top_hashtags stats) <= 10
    ∧ Forall (fun e => 1 <= e.2 <= total_tweets stats) (top_brands stats)
    ∧ (total_tweets stats = 0 -> top_brands stats = [] ∧ top_hashtags stats = []).
Proof.
  destruct (get_daily_stats_run today date c)
    as (d & stats & _ & Hrun & Htot & Huniq & Hbrands & Htags).
  exists stats. split; [done |]. rewrite Htot, Huniq, Hbrands, Htags.
  set (rows := rows_on_date d (working c)).
  set (keys := filter (fun b => b ≠ "") (omap brand_mentioned rows)).
  destruct (top_counts_ranking 5 keys) as (Hlen5 & _ & _ & Hin5 & _).
  destruct (top_counts_ranking 10 (hashtags_on_date d (working c))) as (Hlen10 & _).
  split; [| split; [lia | split; [lia | split]]].
  - rewrite <- (length_fmap user_id rows). apply submseteq_length.
    apply NoDup_submseteq; [apply NoDup_remove_dups |].
    intros x. by rewrite elem_of_remove_dups.
  - apply Forall_forall. intros [k m] [Hk ->]%Hin5. unfold occurrences. cbn [snd]. split.
    + assert (k ∈ filter (fun x => x = k) keys) as Hk' by (by apply list_elem_of_filter).
      destruct (filter (fun x => x = k) keys); [by apply elem_of_nil in Hk' | simpl; lia].
    + etrans; [apply length_filter |]. unfold keys.
      etrans; [apply length_filter |].
      apply length_omap_le.
  - intros Hnone%nil_length_inv. subst keys rows.
    rewrite (hashtags_on_date_none d (working c) Hnone). by rewrite Hnone.
Qed.

(** X23. For a date given as a non-empty string, the brands and the tags of
    the statistics are rankings: of the non-empty brands of the records
    of the day, and of the tags of the records of the day. *)
Theorem get_daily_stats_rankings (today d : string) (c : conn) :
  d ≠ "" ->
  ∃ stats,
    get_daily_stats today (Some d) c = (Return (Some stats), c)
    ∧ ranking 5 (filter (fun b => b ≠ "")
                   (omap brand_mentioned (rows_on_date d (working c))))
        (top_brands stats)
    ∧ ranking 10 (hashtags_on_date d (working c)) (top_hashtags stats).
Proof.
  intros Hd.
  destruct (get_daily_stats_run today (Some d) c)
    as (d' & stats & Hdate & Hrun & _ & _ & Hbrands & Htags).
  apply String.eqb_neq in Hd. rewrite Hd in Hdate. cbn [negb] in Hdate. subst d'.
  exists stats. split; [done |]. rewrite Hbrands, Htags.
  split; apply top_counts_ranking.
Qed.

Lemma save_tweets_appends (clk : clock) (batch : list pydict) (c : conn) :
  clean c ->
  ∃ rows,
    (save_tweets clk batch c).1 = Return (length rows)
    ∧ tweets (working ((save_tweets clk batch c).2)) = tweets (working c) ++ rows.
Proof.
  intros Hclean. rewrite save_tweets_run.
  destruct batch as [| t rest]; [exists []; by rewrite app_nil_r |].
  destruct (save_loop clk (t :: rest) 0 c) as [[n | e] c1] eqn:Hloop; cbn [fst snd].
  - apply save_loop_returns in Hloop as (rows & (_ & Htw & _) & -> & _).
    exists rows. split; [done |]. by destruct (saved_tweets clk c1) as (-> & _).
  - exists []. by rewrite (rolled_back_clean c Hclean), app_nil_r.
Qed.

(** X24. The number of records of a day, as the statistics report it, never
    goes down over a call of [save_tweets], and goes up by no more than
    the call returns. *)
Theorem get_daily_stats_after_save (today : string) (date : option string)
    (clk : clock) (batch : list pydict) (c : conn) :
  clean c ->
  ∃ before after n,
    (get_daily_stats today date c).1 = Return (Some before)
    ∧ (save_tweets clk batch c).1 = Return n
    ∧ (get_daily_stats today date ((save_tweets clk batch c).2)).1 = Return (Some after)
    ∧ total_tweets before <= total_tweets after
    ∧ total_tweets after <= total_tweets before + n.
Proof.
  intros Hclean.
  destruct (get_daily_stats_run today date c) as (d & before & Hd & -> & Hb & _).
  destruct (get_daily_stats_run today date ((save_tweets clk batch c).2))
    as (d' & after & Hd' & -> & Ha & _).
  rewrite <- Hd in Hd'. subst d'.
  destruct (save_tweets_appends clk batch c Hclean) as (rows & -> & Htw).
  exists before, after, (length rows). repeat (split; [done |]).
  rewrite Hb, Ha. unfold rows_on_date. rewrite Htw, filter_app, length_app.
  pose proof (length_filter (fun r => on_date d r = true) rows). lia.
Qed.

(** X20. A call with records to save ends the transaction, by the commit or
    by the rollback: nothing is left pending on the connection. *)
Theorem save_tweets_ends_transaction (clk : clock) (batch : list pydict) (c : conn) :
  batch ≠ [] -> clean ((save_tweets clk batch c).2).
Proof.
  intros Hne. rewrite save_tweets_run.
  destruct batch as [| t rest]; [done |].
  by destruct (save_loop clk (t :: rest) 0 c) as [[n | e] c1].
Qed.

(** X21. The registry maintenance never fails, keeps the records, only adds
    to the registry, leaves nothing pending, and run again it changes
    nothing. *)
Theorem update_brand_stats_idempotent (clk1 clk2 : clock) (c : conn) :
  ∃ c1,
    _update_brand_stats clk1 c = (Return tt, c1)
    ∧ clean c1
    ∧ tweets (working c1) = tweets (working c)
    ∧ brands (working c) `prefix_of` brands (working c1)
    ∧ _update_brand_stats clk2 c1 = (Return tt, c1).
Proof.
  rewrite update_brand_stats_run. eexists. split; [reflexivity |].
  split; [done |]. cbn [working]. split; [apply saved_tweets |].
  split; [apply add_brands_prefix |].
  rewrite update_brand_stats_run. cbn [working].
  by rewrite maintained_idle by apply maintained_complete.
Qed.

(** *** What a tag's count counts *)

Lemma occurrences_app (h : string) (l1 l2 : list string) :
  occurrences h (l1 ++ l2) = occurrences h l1 + occurrences h l2.
Proof. unfold occurrences. by rewrite filter_app, length_app. Qed.

Lemma length_filter_or {A} (P Q : A -> Prop) `{∀ x, Decision (P x)}
    `{∀ x, Decision (Q x)} (l : list A) :
  (∀ x, P x -> Q x -> False) ->
  length (filter (fun x => P x ∨ Q x) l) = length (filter P l) + length (filter Q l).
Proof.
  intros Hdis. induction l as [| x l IH]; [done |].
  rewrite !filter_cons.
  destruct (decide (P x)) as [HP | HP], (decide (Q x)) as [HQ | HQ].
  - destruct (Hdis x HP HQ).
  - rewrite decide_True by (by left). simpl. lia.
  - rewrite decide_True by (by right). simpl. lia.
  - rewrite decide_False by (by intros [|]). lia.
Qed.

Lemma occurrences_join_row (d h : string) (row : string * string) (ts : list tweet_row) :
  occurrences h
    (ts ≫= fun t => if bool_decide (row.1 = tweet_id t) && on_date d t
                    then [row.2] else [])
  = length (filter (fun t => on_date d t = true ∧ (tweet_id t, h) = row) ts).
Proof.
  induction ts as [| t ts IH]; [done |].
  rewrite bind_cons, occurrences_app, IH, filter_cons. destruct row as [k g].
  cbn [fst snd].
  destruct (decide (on_date d t = true ∧ (tweet_id t, h) = (k, g)))
    as [[Hon [= <- <-]] | Hno].
  - rewrite Hon, bool_decide_eq_true_2 by done. unfold occurrences at 1. cbn.
    rewrite decide_True by done. simpl. lia.
  - assert (occurrences h
              (if bool_decide (k = tweet_id t) && on_date d t then [g] else []) = 0)
      as ->; [| done].
    destruct (bool_decide (k = tweet_id t)) eqn:Hk, (on_date d t) eqn:Hon; try done.
    apply bool_decide_eq_true in Hk as ->. unfold occurrences. cbn.
    rewrite decide_False; [done |]. intros ->. by apply Hno.
Qed.

Lemma occurrences_join (d h : string) (hs : list (string * string)) (ts : list tweet_row) :
  NoDup hs ->
  occurrences h
    (hs ≫= fun row =>
       ts ≫= fun t => if bool_decide (row.1 = tweet_id t) && on_date d t
                       then [row.2] else [])
  = length (filter (fun t => on_date d t = true ∧ (tweet_id t, h) ∈ hs) ts).
Proof.
  induction 1 as [| row hs Hnew Hnd IH].
  - simpl. symmetry. apply length_zero_iff_nil, elem_of_nil_inv.
    intros t [[_ Hin] _]%list_elem_of_filter. by apply elem_of_nil in Hin.
  - rewrite bind_cons, occurrences_app, IH, occurrences_join_row.
    rewrite <- length_filter_or.
    + f_equal. apply list_filter_iff. intros t. rewrite elem_of_cons. tauto.
    + intros t [_ Heq] [_ Hin]. rewrite Heq in Hin. by apply Hnew.
Qed.

(** X25. On a connection the loader can reach, the count a tag has in the
    statistics of a day is the number of records of that day that carry
    the tag: the join counts no record twice. *)
Theorem reachable_tag_counts (today d : string) (c : conn) :
  reachable c ->
  d ≠ "" ->
  ∃ stats,
    get_daily_stats today (Some d) c = (Return (Some stats), c)
    ∧ ∀ h m, (h, m) ∈ top_hashtags stats ->
             m = length (filter (fun t => on_date d t = true
                                          ∧ (tweet_id t, h) ∈ hashtags (working c))
                           (tweets (working c))).
Proof.
  intros (_ & Hnd & _)%reachable_sound Hd.
  destruct (get_daily_stats_run today (Some d) c)
    as (d' & stats & Hdate & Hrun & _ & _ & _ & Htags).
  apply String.eqb_neq in Hd. rewrite Hd in Hdate. cbn [negb] in Hdate. subst d'.
  exists stats. split; [done |]. intros h m Hin. rewrite Htags in Hin.
  destruct (top_counts_ranking 10 (hashtags_on_date d (working c)))
    as (_ & _ & _ & Hcount & _).
  apply Hcount in Hin as [_ ->]. unfold hashtags_on_date.
  by apply occurrences_join.
Qed.

End Statistics.

(** *** The properties at samples *)

Lemma tesla_conn_reachable :
  @reachable iso_sqlite ((@save_tweets iso_sqlite noon [tesla_tweet] connect).2).
Proof. apply reachable_save. apply reachable_connect. Qed.

Lemma reachable_ids_unique_witness :
  @reachable iso_sqlite ((@save_tweets iso_sqlite noon [tesla_tweet] connect).2)
  ∧ ids_unique (working ((@save_tweets iso_sqlite noon [tesla_tweet] connect).2)).
Proof.
  split; [exact tesla_conn_reachable |].
  exact (proj1 (@reachable_ids_unique iso_sqlite _ tesla_conn_reachable)).
Defined.

Lemma reachable_entities_owned_witness :
  @reachable iso_sqlite ((@save_tweets iso_sqlite noon [tesla_tweet] connect).2)
  ∧ entities_owned (working ((@save_tweets iso_sqlite noon [tesla_tweet] connect).2)).
Proof.
  split; [exact tesla_conn_reachable |].
  exact (@reachable_entities_owned iso_sqlite _ tesla_conn_reachable).
Defined.

Lemma reachable_registry_names_unique_witness :
  @reachable iso_sqlite ((@save_tweets iso_sqlite noon [tesla_tweet] connect).2)
  ∧ registry_names_unique (working ((@save_tweets iso_sqlite noon [tesla_tweet] connect).2)).
Proof.
  split; [exact tesla_conn_reachable |].
  exact (@reachable_registry_names_unique iso_sqlite _ tesla_conn_reachable).
Defined.



Lemma save_tweets_append_only_witness :
  clean connect
  ∧ hashtags (working connect)
    `prefix_of` hashtags (working ((@save_tweets iso_sqlite noon [tesla_tweet] connect).2)).
Proof.
  split; [exact connect_clean |].
  exact (proj1 (proj2 (@save_tweets_append_only iso_sqlite noon [tesla_tweet]
                         connect connect_clean))).
Defined.

Lemma saved_records_are_found_witness :
  clean connect
  ∧ (@save_body iso_sqlite noon [tesla_tweet] connect).1 = Return 1
  ∧ Forall (fun t =>
              (@select_tweet_id iso_sqlite (dict_get t "tweet_id")
                 ((@save_tweets iso_sqlite noon [tesla_tweet] connect).2)).1 = Return true)
      [tesla_tweet].
Proof.
  split; [exact connect_clean |]. split; [exact tesla_batch_returns |].
  exact (@saved_records_are_found iso_sqlite noon [tesla_tweet] connect 1
           connect_clean tesla_batch_returns).
Defined.

Lemma tesla_key_stored :
  Forall (fun t => ∃ k, @key_of iso_sqlite t = Some k
                        ∧ k ∈ tweet_ids (working
                                ((@save_tweets iso_sqlite noon [tesla_tweet] connect).2)))
    [<["tweet_id" := PyStr "a1"]> broken_tweet].
Proof.
  constructor; [| constructor]. exists "a1". split; [by vm_compute |].
  vm_compute. apply list_elem_of_here.
Qed.

(** A record that has nothing but the identity of a stored one. *)
Lemma save_tweets_all_stored_witness :
  @reachable iso_sqlite ((@save_tweets iso_sqlite noon [tesla_tweet] connect).2)
  ∧ @save_tweets iso_sqlite evening [<["tweet_id" := PyStr "a1"]> broken_tweet]
      ((@save_tweets iso_sqlite noon [tesla_tweet] connect).2)
    = (Return 0, (@save_tweets iso_sqlite noon [tesla_tweet] connect).2).
Proof.
  split; [exact tesla_conn_reachable |].
  exact (@save_tweets_all_stored iso_sqlite evening _ _ tesla_conn_reachable
           tesla_key_stored).
Defined.

Lemma broken_tweet_first_write :
  broken_tweet ∈ @first_writes iso_sqlite (tweet_ids (working connect))
                   [tesla_tweet; broken_tweet].
Proof. vm_compute. apply list_elem_of_further, list_elem_of_here. Qed.

Lemma broken_tweet_required_missing : required_missing broken_tweet.
Proof. right; left. by vm_compute. Qed.

Lemma save_tweets_required_field_witness :
  clean connect
  ∧ required_missing broken_tweet
  ∧ @save_tweets iso_sqlite noon [tesla_tweet; broken_tweet] connect = (Return 0, connect).
Proof.
  split; [exact connect_clean |]. split; [exact broken_tweet_required_missing |].
  exact (@save_tweets_required_field iso_sqlite noon [tesla_tweet; broken_tweet] connect
           broken_tweet connect_clean broken_tweet_first_write
           broken_tweet_required_missing).
Defined.

Lemma anonymous_in_batch :
  (∅ : pydict) ∈ [tesla_tweet; (∅ : pydict)].
Proof. apply list_elem_of_further, list_elem_of_here. Qed.

Lemma save_tweets_missing_id_witness :
  clean connect
  ∧ dict_get (∅ : pydict) "tweet_id" = PyNone
  ∧ @save_tweets iso_sqlite noon [tesla_tweet; ∅] connect = (Return 0, connect).
Proof.
  split; [exact connect_clean |]. split; [reflexivity |].
  exact (@save_tweets_missing_id iso_sqlite noon [tesla_tweet; ∅] connect ∅
           connect_clean anonymous_in_batch eq_refl).
Defined.



Lemma get_daily_stats_rankings_witness :
  "2024-01-15" ≠ ""
  ∧ ∃ stats,
      @get_daily_stats iso_sqlite "2024-02-01" (Some "2024-01-15")
        ((@save_tweets iso_sqlite noon [tesla_tweet] connect).2)
      = (Return (Some stats), (@save_tweets iso_sqlite noon [tesla_tweet] connect).2)
      ∧ ranking 10
          (@hashtags_on_date iso_sqlite "2024-01-15"
             (working ((@save_tweets iso_sqlite noon [tesla_tweet] connect).2)))
          (top_hashtags stats).
Proof.
  assert (Hd : "2024-01-15" ≠ "") by discriminate.
  split; [exact Hd |].
  destruct (@get_daily_stats_rankings iso_sqlite "2024-02-01" "2024-01-15"
              ((@save_tweets iso_sqlite noon [tesla_tweet] connect).2) Hd)
    as (stats & Hrun & _ & Htags).
  exists stats. split; [exact Hrun | exact Htags].
Defined.

Lemma get_daily_stats_after_save_witness :
  clean connect
  ∧ ∃ before after n,
      (@get_daily_stats iso_sqlite "2024-01-15" None connect).1 = Return (Some before)
      ∧ (@save_tweets iso_sqlite noon [tesla_tweet] connect).1 = Return n
      ∧ (@get_daily_stats iso_sqlite "2024-01-15" None
           ((@save_tweets iso_sqlite noon [tesla_tweet] connect).2)).1
        = Return (Some after)
      ∧ total_tweets before <= total_tweets after
      ∧ total_tweets after <= total_tweets before + n.
Proof.
  split; [exact connect_clean |].
  exact (@get_daily_stats_after_save iso_sqlite "2024-01-15" None noon [tesla_tweet]
           connect connect_clean).
Defined.

Lemma broken_batch_not_empty : [tesla_tweet; broken_tweet] ≠ [].
Proof. discriminate. Qed.

Lemma save_tweets_ends_transaction_witness :
  [tesla_tweet; broken_tweet] ≠ []
  ∧ clean ((@save_tweets iso_sqlite noon [tesla_tweet; broken_tweet] connect).2).
Proof.
  split; [exact broken_batch_not_empty |].
  exact (@save_tweets_ends_transaction iso_sqlite noon [tesla_tweet; broken_tweet]
           connect broken_batch_not_empty).
Defined.

Lemma reachable_tag_counts_witness :
  @reachable iso_sqlite ((@save_tweets iso_sqlite noon [tesla_tweet] connect).2)
  ∧ "2024-01-15" ≠ ""
  ∧ ∃ stats,
      @get_daily_stats iso_sqlite "2024-02-01" (Some "2024-01-15")
        ((@save_tweets iso_sqlite noon [tesla_tweet] connect).2)
      = (Return (Some stats), (@save_tweets iso_sqlite noon [tesla_tweet] connect).2)
      ∧ ∀ h m, (h, m) ∈ top_hashtags stats ->
               m = length
                     (filter (fun t => @on_date iso_sqlite "2024-01-15" t = true
                                       ∧ (tweet_id t, h)
                                         ∈ hashtags (working
                                             ((@save_tweets iso_sqlite noon
                                                 [tesla_tweet] connect).2)))
                        (tweets (working
                           ((@save_tweets iso_sqlite noon [tesla_tweet] connect).2)))).
Proof.
  assert (Hd : "2024-01-15" ≠ "") by discriminate.
  split; [exact tesla_conn_reachable |]. split; [exact Hd |].
  exact (@reachable_tag_counts iso_sqlite "2024-02-01" "2024-01-15" _
           tesla_conn_reachable Hd).
Defined.

(** The statistics of the day of the sample record. *)
Example tesla_day_statistics :
  (@get_daily_stats iso_sqlite "2024-02-01" (Some "2024-01-15")
     ((@save_tweets iso_sqlite noon [tesla_tweet] connect).2)).1
  = Return (Some {| total_tweets := 1; unique_users := 1;
                    avg_retweets := 0; avg_favorites := 0;
                    top_brands := [(" Tesla ", 1)];
                    top_hashtags := [("tesla", 1); ("ev", 1)] |}).
Proof. by vm_compute. Qed.

End LoaderExtras.

(** * Further properties: saving with sentiment analysis *)

Module SentimentLoaderFacts.
Import SentimentAnalyzer DatabaseLoader SentimentLoader Installations Samples Spec
  LoaderFacts.

Section Facts.
Context `{TextBlob} `{SQLite} `{Installation}.

Lemma deref_all_run (tweets : list nat) (h : list pydict) :
  Forall (fun r => r < length h) tweets ->
  ∃ ds, Forall2 (fun r d => h !! r = Some d) tweets ds
        ∧ deref_all tweets h = (Return ds, h).
Proof.
  induction tweets as [| r rest IH]; intros Hb.
  - exists []. by split; [constructor |].
  - apply Forall_cons in Hb as [Hr Hrest].
    destruct (lookup_lt_is_Some_2 h r Hr) as [d Hd].
    destruct (IH Hrest) as (ds & Hds & Hrun).
    exists (d :: ds). split; [by constructor |].
    cbn [deref_all]. unfold mbind, M_bind, deref. by rewrite Hd, Hrun.
Qed.

(** Reading the new references gives the new records. *)
Lemma deref_all_new (h ds : list pydict) :
  deref_all (seq (length h) (length ds)) (h ++ ds) = (Return ds, h ++ ds).
Proof.
  revert h. induction ds as [| d ds IH]; intros h; [done |].
  cbn [length seq deref_all]. unfold mbind, M_bind, deref.
  rewrite lookup_app_r, Nat.sub_diag by lia. cbn [lookup list_lookup].
  specialize (IH (h ++ [d])). rewrite length_app, Nat.add_1_r, <- app_assoc in IH.
  cbn [app] in IH. by rewrite IH.
Qed.

Lemma analyze_tweets_new (self : t) (tweets : list nat) (h : list pydict) :
  Forall (fun r => r < length h) tweets ->
  ∃ ds, Forall2 (analyzed_from self h) tweets ds
        ∧ analyze_tweets self tweets h
          = (Return (seq (length h) (length ds)), h ++ ds).
Proof.
  intros Hb.
  destruct (AnalyzerFacts.analyze_loop_spec self tweets [] h Hb) as (ds & Hds & Hrun).
  exists ds. split; [done |]. rewrite <- (Forall2_length _ _ _ Hds).
  destruct tweets; [| exact Hrun].
  apply Forall2_nil_inv_l in Hds as ->. simpl. by rewrite app_nil_r.
Qed.

(** With the analysis, the call is [save_tweets] on the analysed copies,
    which are new objects. *)
Lemma save_tweets_with_sentiment_run (clk : clock) (tweets : list nat)
    (h : list pydict) (c : conn) :
  Forall (fun r => r < length h) tweets ->
  import_sentiment_analyzer = Return tt ->
  ∃ ds, Forall2 (analyzed_from (init None) h) tweets ds
        ∧ save_tweets_with_sentiment clk tweets true (h, c)
          = ((save_tweets clk ds c).1, (h ++ ds, (save_tweets clk ds c).2)).
Proof.
  intros Hb Himp.
  destruct (analyze_tweets_new (init None) tweets h Hb) as (ds & Hds & Hrun).
  exists ds. split; [done |].
  destruct tweets as [| r rest].
  { apply Forall2_nil_inv_l in Hds as ->. by rewrite app_nil_r. }
  unfold save_tweets_with_sentiment, try_except, on_heap, on_conn.
  unfold mbind, M_bind, lift. rewrite Himp. cbn [fst snd]. rewrite Hrun.
  cbn [fst snd]. rewrite deref_all_new. cbn [fst snd].
  by destruct (save_tweets clk ds c).
Qed.

(** Without the analysis, it is [save_tweets] on the records as they
    are. *)
Lemma save_tweets_with_sentiment_skip (clk : clock) (tweets : list nat)
    (flag : bool) (h : list pydict) (c : conn) :
  Forall (fun r => r < length h) tweets ->
  flag = false ∨ (∃ e, import_sentiment_analyzer = Raise e) ->
  ∃ ds, Forall2 (fun r d => h !! r = Some d) tweets ds
        ∧ save_tweets_with_sentiment clk tweets flag (h, c)
          = ((save_tweets clk ds c).1, (h, (save_tweets clk ds c).2)).
Proof.
  intros Hb Hskip.
  destruct (deref_all_run tweets h Hb) as (ds & Hds & Hrun).
  exists ds. split; [done |].
  destruct tweets as [| r rest].
  { by apply Forall2_nil_inv_l in Hds as ->. }
  assert (Hsave : ∀ s : list pydict * conn,
            s = (h, c) ->
            (let (o, s') := (Return (r :: rest), s) in
             match o with
             | Return a =>
                 let (o0, s'0) := let '(o0, h0) := deref_all a s'.1 in (o0, (h0, s'.2)) in
                 match o0 with
                 | Return a0 =>
                     let '(o1, c0) := save_tweets clk a0 s'0.2 in (o1, (s'0.1, c0))
                 | Raise e => (Raise e, s'0)
                 end
             | Raise e => (Raise e, s')
             end) = ((save_tweets clk ds c).1, (h, (save_tweets clk ds c).2))).
  { intros s ->. cbn [fst snd]. rewrite Hrun. cbn [fst snd].
    by destruct (save_tweets clk ds c). }
  unfold save_tweets_with_sentiment, try_except, on_heap, on_conn.
  unfold mbind, M_bind, lift, mret, M_ret.
  destruct Hskip as [-> | [e He]]; [by apply Hsave |].
  destruct flag; [| by apply Hsave]. rewrite He. by apply Hsave.
Qed.

Lemma save_tweets_returns (clk : clock) (batch : list pydict) (c : conn) :
  ∃ n, (save_tweets clk batch c).1 = Return n.
Proof.
  rewrite save_tweets_run. destruct batch as [| t rest]; [by exists 0 |].
  destruct (save_loop clk (t :: rest) 0 c) as [[n | e] c1]; by eexists.
Qed.

(** X26. The call never raises, and the records it is given are not changed:
    with the analysis, what is saved are copies. *)
Theorem save_tweets_with_sentiment_total (clk : clock) (tweets : list nat)
    (flag : bool) (h : list pydict) (c : conn) :
  Forall (fun r => r < length h) tweets ->
  ∃ n h' c',
    save_tweets_with_sentiment clk tweets flag (h, c) = (Return n, (h', c'))
    ∧ h `prefix_of` h'.
Proof.
  intros Hb.
  assert (Hcases : (flag = true ∧ import_sentiment_analyzer = Return tt)
                   ∨ flag = false ∨ (∃ e, import_sentiment_analyzer = Raise e)).
  { destruct flag; [| by right; left].
    destruct import_sentiment_analyzer as [[] | e]; [by left | right; right; by exists e]. }
  destruct Hcases as [[-> Himp] | Hskip].
  - destruct (save_tweets_with_sentiment_run clk tweets h c Hb Himp) as (ds & _ & ->).
    destruct (save_tweets_returns clk ds c) as [n ->].
    eexists _, _, _. split; [done |]. by apply prefix_app_r.
  - destruct (save_tweets_with_sentiment_skip clk tweets flag h c Hb Hskip) as (ds & _ & ->).
    destruct (save_tweets_returns clk ds c) as [n ->].
    by eexists _, _, _.
Qed.

(** X27. When the analysis is not asked for, or the analyzer cannot be
    imported, the records are saved as they are; the missing analyzer is
    not an error. *)
Theorem save_tweets_with_sentiment_without_analyzer (clk : clock) (tweets : list nat)
    (flag : bool) (h : list pydict) (c : conn) :
  Forall (fun r => r < length h) tweets ->
  flag = false ∨ (∃ e, import_sentiment_analyzer = Raise e) ->
  ∃ ds, Forall2 (fun r d => h !! r = Some d) tweets ds
        ∧ save_tweets_with_sentiment clk tweets flag (h, c)
          = ((save_tweets clk ds c).1, (h, (save_tweets clk ds c).2)).
Proof. apply save_tweets_with_sentiment_skip. Qed.

Ltac destruct_fields :=
  repeat match goal with
         | |- context [match adapt ?x with _ => _ end] =>
             destruct (adapt x) eqn:?; try done
         | |- context [match not_null ?x with _ => _ end] =>
             destruct x eqn:?; simpl; try done
         | |- context [py_truthy ?x] =>
             destruct (py_truthy x) eqn:?; simpl; try done
         end.

(** The sentiment columns of a row hold what the record has under
    [sentiment_score] and [sentiment_category]. *)
Lemma tweet_row_of_sentiment (clk : clock) (t : pydict) (r : tweet_row) :
  tweet_row_of clk t = Return r ->
  adapt (dict_get t "sentiment_score") = Return (DatabaseLoader.sentiment_score r)
  ∧ ∃ v, adapt (dict_get t "sentiment_category") = Return v
         ∧ DatabaseLoader.sentiment_category r = text_affinity v.
Proof.
  unfold tweet_row_of, mbind, outcome_bind.
  destruct (adapt (dict_get t "sentiment_score")) as [v1 |] eqn:Hv1;
    destruct (adapt (dict_get t "sentiment_category")) as [v2 |] eqn:Hv2;
    destruct_fields.
  intros [= <-]. simpl. split; [done |]. by exists v2.
Qed.

Lemma first_writes_subseteq (batch : list pydict) :
  ∀ seen t, t ∈ first_writes seen batch -> t ∈ batch.
Proof.
  induction batch as [| x rest IH]; intros seen t; [done |].
  simpl. destruct (key_of x) as [k |]; [case_decide |].
  - intros Hin. apply list_elem_of_further. by eapply IH.
  - intros [-> | Hin]%elem_of_cons; [apply list_elem_of_here |].
    apply list_elem_of_further. by eapply IH.
  - intros [-> | Hin]%elem_of_cons; [apply list_elem_of_here |].
    apply list_elem_of_further. by eapply IH.
Qed.

Lemma key_of_with_sentiment (s : sentiment) (d : pydict) :
  key_of (with_sentiment s d) = key_of d.
Proof.
  unfold key_of, dict_get, dict_get_d.
  rewrite AnalyzerFacts.with_sentiment_other; [done |].
  unfold sentiment_keys. set_solver.
Qed.

Lemma with_sentiment_score (s : sentiment) (d : pydict) :
  dict_get (with_sentiment s d) "sentiment_score"
  = PyFloat (SentimentAnalyzer.sentiment_score s).
Proof. unfold with_sentiment, dict_get, dict_get_d. by simplify_map_eq. Qed.

Lemma with_sentiment_category (s : sentiment) (d : pydict) :
  dict_get (with_sentiment s d) "sentiment_category"
  = PyStr (SentimentAnalyzer.sentiment_category s).
Proof. unfold with_sentiment, dict_get, dict_get_d. by simplify_map_eq. Qed.

(** X28. With the analysis, every row the call adds carries the score and
    the category of the analysis of its record's text; a failed call adds
    none. *)
Theorem save_tweets_with_sentiment_scores (clk : clock) (tweets : list nat)
    (h : list pydict) (c : conn) :
  clean c ->
  Forall (fun r => r < length h) tweets ->
  import_sentiment_analyzer = Return tt ->
  ∃ rows h' c',
    save_tweets_with_sentiment clk tweets true (h, c) = (Return (length rows), (h', c'))
    ∧ DatabaseLoader.tweets (working c') = DatabaseLoader.tweets (working c) ++ rows
    ∧ Forall (fun r =>
                ∃ ref d s,
                  ref ∈ tweets ∧ h !! ref = Some d
                  ∧ key_of d = Some (tweet_id r)
                  ∧ analyze_sentiment (init None) (text_of d) = Return s
                  ∧ DatabaseLoader.sentiment_score r
                    = SReal (SentimentAnalyzer.sentiment_score s)
                  ∧ DatabaseLoader.sentiment_category r
                    = Some (SentimentAnalyzer.sentiment_category s)) rows.
Proof.
  intros Hclean Hb Himp.
  destruct (save_tweets_with_sentiment_run clk tweets h c Hb Himp) as (ds & Hds & ->).
  rewrite save_tweets_run.
  destruct ds as [| t rest].
  { exists [], (h ++ []), c. split; [done |].
    split; [by rewrite app_nil_r | constructor]. }
  set (ds := t :: rest) in *.
  destruct (save_loop clk ds 0 c) as [[n | e] c1] eqn:Hloop; cbn [fst snd].
  - apply save_loop_returns in Hloop as (rows & (Hrows & Htw & _) & -> & _).
    exists rows, (h ++ ds), (saved clk c1). split; [done |].
    destruct (saved_tweets clk c1) as (-> & _). split; [done |].
    apply Forall_forall. intros r Hr.
    apply list_elem_of_lookup in Hr as [i Hi].
    destruct (Forall2_lookup_r _ _ _ _ _ Hrows Hi) as (t' & Ht' & Hrow).
    apply list_elem_of_lookup_2, first_writes_subseteq in Ht'.
    apply list_elem_of_lookup in Ht' as [j Hj].
    destruct (Forall2_lookup_r _ _ _ _ _ Hds Hj) as (ref & Href & d & s & Hd & Hs & ->).
    exists ref, d, s. split; [by eapply list_elem_of_lookup_2 |]. split; [done |].
    split; [rewrite <- key_of_with_sentiment with (s := s); by eapply tweet_row_of_key |].
    split; [done |].
    destruct (tweet_row_of_sentiment clk _ r Hrow) as (Hscore & v & Hv & Hcat).
    rewrite with_sentiment_score in Hscore. rewrite with_sentiment_category in Hv.
    injection Hscore as <-. injection Hv as <-. by rewrite Hcat.
  - exists [], (h ++ ds), (rolled_back c). split; [done |].
    rewrite (rolled_back_clean c Hclean), app_nil_r. split; [done | constructor].
Qed.

End Facts.

(** *** The properties at samples *)

Lemma sample_refs_valid :
  Forall (fun r => r < length [tesla_tweet; scored_tweet]) [0; 1].
Proof. repeat constructor; simpl; lia. Qed.

Lemma save_tweets_with_sentiment_total_witness :
  Forall (fun r => r < length [tesla_tweet; scored_tweet]) [0; 1]
  ∧ ∃ n h' c',
      @save_tweets_with_sentiment lexicon_blob iso_sqlite complete noon [0; 1] true
        ([tesla_tweet; scored_tweet], connect) = (Return n, (h', c'))
      ∧ [tesla_tweet; scored_tweet] `prefix_of` h'.
Proof.
  split; [exact sample_refs_valid |].
  exact (@save_tweets_with_sentiment_total lexicon_blob iso_sqlite complete noon [0; 1]
           true [tesla_tweet; scored_tweet] connect sample_refs_valid).
Defined.

Lemma bare_has_no_analyzer :
  true = false ∨ (∃ e, @import_sentiment_analyzer bare = Raise e).
Proof. right. by exists AttributeError. Qed.

Lemma save_tweets_with_sentiment_without_analyzer_witness :
  Forall (fun r => r < length [tesla_tweet; scored_tweet]) [0; 1]
  ∧ ∃ ds,
      Forall2 (fun r d => [tesla_tweet; scored_tweet] !! r = Some d) [0; 1] ds
      ∧ @save_tweets_with_sentiment lexicon_blob iso_sqlite bare noon [0; 1] true
          ([tesla_tweet; scored_tweet], connect)
        = ((@save_tweets iso_sqlite noon ds connect).1,
           ([tesla_tweet; scored_tweet], (@save_tweets iso_sqlite noon ds connect).2)).
Proof.
  split; [exact sample_refs_valid |].
  exact (@save_tweets_with_sentiment_without_analyzer lexicon_blob iso_sqlite bare noon
           [0; 1] true [tesla_tweet; scored_tweet] connect sample_refs_valid
           bare_has_no_analyzer).
Defined.

Lemma save_tweets_with_sentiment_scores_witness :
  clean connect
  ∧ Forall (fun r => r < length [tesla_tweet; scored_tweet]) [0; 1]
  ∧ @import_sentiment_analyzer complete = Return tt
  ∧ ∃ rows h' c',
      @save_tweets_with_sentiment lexicon_blob iso_sqlite complete noon [0; 1] true
        ([tesla_tweet; scored_tweet], connect) = (Return (length rows), (h', c'))
      ∧ DatabaseLoader.tweets (working c') = DatabaseLoader.tweets (working connect) ++ rows.
Proof.
  split; [exact connect_clean |]. split; [exact sample_refs_valid |].
  split; [reflexivity |].
  destruct (@save_tweets_with_sentiment_scores lexicon_blob iso_sqlite complete noon
              [0; 1] [tesla_tweet; scored_tweet] connect connect_clean
              sample_refs_valid eq_refl) as (rows & h' & c' & Hrun & Htw & _).
  exists rows, h', c'. split; [exact Hrun | exact Htw].
Defined.

(** One record alone: it is stored with the score 0.5 and the category
    of the text it carries under [content]. *)
Example love_tweet_scored :
  let love := <["content" := PyStr " I absolutely love this! "]> tesla_tweet in
  (λ r, (DatabaseLoader.sentiment_score r, DatabaseLoader.sentiment_category r))
  <$> DatabaseLoader.tweets (working
        ((@save_tweets_with_sentiment lexicon_blob iso_sqlite complete noon [0] true
            ([love], connect)).2.2))
  = [(SReal (1 # 2), Some "positive")].
Proof. by vm_compute. Qed.
End SentimentLoaderFacts.
